(** * Offline cache and sync queue of the fitness application

    A shallow embedding of [services/storageService.ts] (the expiring
    key-value cache, the sync queue and its reconciliation pass), of the
    read methods of [services/firestore.ts] and of the load/save routines of
    [App.tsx] that use them, followed by the properties of the specification
    that are settled on this embedding. *)

From stdpp Require Import gmap strings list fin_maps pretty.

Set Warnings "-register-all".

Open Scope string_scope.
Open Scope list_scope.
Open Scope Z_scope.

(** ** JavaScript values *)

Module JS.

(** [action: 'create' | 'update' | 'delete'] *)
Inductive Action := create | update | delete_.

(** The JSON-representable values the application stores and sends, and
    [interface SyncQueue], one pending mutation.  [undefined] is not a
    [value]: an expression that may be [undefined] has type [option value].
    Numbers are integers here (the code under study compares and adds
    millisecond timestamps and small counters).  [VQueue] is an array whose
    elements are [SyncQueue] objects, the [SyncQueue[]] of the source. *)
Inductive value :=
  | VNull
  | VBool (b : bool)
  | VNum (n : Z)
  | VStr (s : string)
  | VArr (elems : list value)
  | VObj (fields : list (string * value))
  | VQueue (items : list SyncQueue)
with SyncQueue :=
  | mkSyncQueue (id : string) (action : Action) (collection : string)
      (data : value) (timestamp : Z) (retryCount : Z).

Definition id (i : SyncQueue) := let 'mkSyncQueue x _ _ _ _ _ := i in x.
Definition action (i : SyncQueue) := let 'mkSyncQueue _ x _ _ _ _ := i in x.
Definition collection (i : SyncQueue) := let 'mkSyncQueue _ _ x _ _ _ := i in x.
Definition data (i : SyncQueue) := let 'mkSyncQueue _ _ _ x _ _ := i in x.
Definition timestamp (i : SyncQueue) := let 'mkSyncQueue _ _ _ _ x _ := i in x.
Definition retryCount (i : SyncQueue) := let 'mkSyncQueue _ _ _ _ _ x := i in x.

Definition action_eqb (a b : Action) : bool :=
  match a, b with
  | create, create | update, update | delete_, delete_ => true
  | _, _ => false
  end.

(** An exception in flight: the message of the [Error], or the rejection
    reason of a promise. *)
Definition error := string.

(** The completion of a statement that can throw, and of an awaited
    promise. *)
Inductive outcome (A : Type) :=
  | Ok (a : A)
  | Throw (e : error).
Arguments Ok {A} a.
Arguments Throw {A} e.

(** [!!s] for a string. *)
Definition truthy_str (s : string) : bool :=
  match s with EmptyString => false | _ => true end.

(** [!!v]. *)
Definition truthy (v : value) : bool :=
  match v with
  | VNull => false
  | VBool b => b
  | VNum n => negb (n =? 0)
  | VStr s => truthy_str s
  | VArr _ => true
  | VObj _ => true
  | VQueue _ => true
  end.

(** [Array.isArray(v)] *)
Definition isArray (v : value) : bool :=
  match v with VArr _ | VQueue _ => true | _ => false end.

(** [!!x] where [x] may be [undefined]. *)
Definition truthy_opt (x : option value) : bool :=
  match x with Some v => truthy v | None => false end.

Fixpoint assoc (k : string) (fields : list (string * value)) : option value :=
  match fields with
  | [] => None
  | (k', v) :: rest => if String.eqb k k' then Some v else assoc k rest
  end.

(** [v.k] for one of the payload field names the code reads ([userId],
    [profile], [weight], [notes], [city], [notifications]): a [TypeError] on
    [null], the field of an object, [undefined] on anything else. *)
Definition prop (v : value) (k : string) : outcome (option value) :=
  match v with
  | VNull => Throw "TypeError: cannot read properties of null"
  | VObj fields => Ok (assoc k fields)
  | _ => Ok None
  end.

(** [{...v, k: x}] on an object. *)
Fixpoint set_field (k : string) (x : value) (fields : list (string * value))
  : list (string * value) :=
  match fields with
  | [] => [(k, x)]
  | (k', v) :: rest =>
      if String.eqb k k' then (k', x) :: rest else (k', v) :: set_field k x rest
  end.

(** [String.prototype.startsWith]. *)
Definition startsWith (s p : string) : bool := String.prefix p s.

End JS.

Import JS.

(** ** The storage service *)

Module Storage.

(** [interface CachedData]; [expiry] is the optional field. *)
Record CachedData := mkCachedData {
  cd_data : value;
  cd_timestamp : Z;
  cd_expiry : option Z;
}.

(** A string held by [localStorage]: the [JSON.stringify] of a [CachedData]
    (which [JSON.parse] gives back), or any other string, from which [get]
    obtains no data (empty, rejected by [JSON.parse], or parsed to something
    without a [data] field). *)
Inductive lsItem :=
  | LsJson (c : CachedData)
  | LsRaw (s : string).

Definition JSON_parse (item : lsItem) : option CachedData :=
  match item with LsJson c => Some c | LsRaw _ => None end.

(** The service object together with the browser store it wraps.
    [setItemThrows] says that [localStorage.setItem] raises (quota exceeded,
    access denied); [isStorageAvailable] is the flag computed once by the
    constructor. *)
Record storage := mkStorage {
  isStorageAvailable : bool;
  localStorage : gmap string lsItem;
  setItemThrows : bool;
  inMemoryStorage : gmap string CachedData;
}.

Definition with_localStorage (st : storage) (ls : gmap string lsItem) : storage :=
  mkStorage (isStorageAvailable st) ls (setItemThrows st) (inMemoryStorage st).

Definition with_inMemoryStorage (st : storage) (m : gmap string CachedData) : storage :=
  mkStorage (isStorageAvailable st) (localStorage st) (setItemThrows st) m.

Definition PREFIX : string := "fitness_app_".
Definition SYNC_QUEUE_KEY : string := "sync_queue".

(** [localStorage.setItem(k, item)]; [None] when it throws. *)
Definition localStorage_setItem (st : storage) (k : string) (item : lsItem)
  : option storage :=
  if setItemThrows st then None
  else Some (with_localStorage st (<[k := item]> (localStorage st))).

(** [expiryHours ? Date.now() + expiryHours * 60 * 60 * 1000 : undefined] *)
Definition expiry_of (now : Z) (expiryHours : option Z) : option Z :=
  match expiryHours with
  | Some h => if h =? 0 then None else Some (now + h * 60 * 60 * 1000)
  | None => None
  end.

(** [set(key, value, expiryHours?)].  [value = None] is [undefined],
    [expiryHours] counts whole hours, [now] is the reading of [Date.now()]. *)
Definition set (st : storage) (now : Z) (key : string) (value : option value)
    (expiryHours : option Z) : bool * storage :=
  if negb (truthy_str key) then (false, st) else
  match value with
  | None => (false, st)
  | Some v =>
      let cachedData := mkCachedData v now (expiry_of now expiryHours) in
      if isStorageAvailable st then
        match localStorage_setItem st (PREFIX +:+ key) (LsJson cachedData) with
        | Some st' => (true, st')
        | None =>
            (* catch: fallback to in-memory storage *)
            (true, with_inMemoryStorage st
                     (<[PREFIX +:+ key := cachedData]> (inMemoryStorage st)))
        end
      else
        (true, with_inMemoryStorage st
                 (<[PREFIX +:+ key := cachedData]> (inMemoryStorage st)))
  end.

(** [remove(key)] *)
Definition remove (st : storage) (key : string) : bool * storage :=
  if negb (truthy_str key) then (false, st) else
  if isStorageAvailable st then
    (true, with_localStorage st (delete (PREFIX +:+ key) (localStorage st)))
  else
    (true, with_inMemoryStorage st (delete (PREFIX +:+ key) (inMemoryStorage st))).

(** The entry [get] works on: [JSON.parse(localStorage.getItem(k))] or
    [inMemoryStorage.get(k)]; [None] on every path of [get] that returns
    [null] before the expiry check. *)
Definition read_entry (st : storage) (k : string) : option CachedData :=
  if isStorageAvailable st then
    match localStorage st !! k with
    | Some item => JSON_parse item
    | None => None
    end
  else inMemoryStorage st !! k.

(** [cachedData.expiry && Date.now() > cachedData.expiry] *)
Definition expired (now : Z) (c : CachedData) : bool :=
  match cd_expiry c with
  | Some e => negb (e =? 0) && (now >? e)
  | None => false
  end.

(** [get(key)]; [None] is [null]. *)
Definition get (st : storage) (now : Z) (key : string) : option value * storage :=
  if negb (truthy_str key) then (None, st) else
  match read_entry st (PREFIX +:+ key) with
  | None => (None, st)
  | Some cachedData =>
      if expired now cachedData then (None, (remove st key).2)
      else (Some (cd_data cachedData), st)
  end.

(** [Object.keys(localStorage)] and [Array.from(inMemoryStorage.keys())]. *)
Definition keys {V} (m : gmap string V) : list string := (map_to_list m).*1.

Definition delete_all {V} (ks : list string) (m : gmap string V) : gmap string V :=
  foldl (λ acc k, delete k acc) m ks.

(** [clear()] *)
Definition clear (st : storage) : bool * storage :=
  if isStorageAvailable st then
    let ks := List.filter (λ key, startsWith key PREFIX) (keys (localStorage st)) in
    (true, with_localStorage st (delete_all ks (localStorage st)))
  else
    let ks := List.filter (λ key, startsWith key PREFIX) (keys (inMemoryStorage st)) in
    (true, with_inMemoryStorage st (delete_all ks (inMemoryStorage st))).

(** *** Typed cache helpers *)

(** [cacheUserProfile(userId, profile)] *)
Definition cacheUserProfile (st : storage) (now : Z) (userId : string)
    (profile : value) : storage :=
  if negb (truthy_str userId) || negb (truthy profile) then st
  else (set st now ("user_profile_" +:+ userId) (Some profile) (Some 48)).2.

Definition getCachedUserProfile (st : storage) (now : Z) (userId : string)
  : option value * storage :=
  if negb (truthy_str userId) then (None, st)
  else get st now ("user_profile_" +:+ userId).

(** [cacheSessions(userId, sessions)] *)
Definition cacheSessions (st : storage) (now : Z) (userId : string)
    (sessions : value) : storage :=
  if negb (truthy_str userId) || negb (isArray sessions) then st
  else (set st now ("sessions_" +:+ userId) (Some sessions) (Some 24)).2.

Definition getCachedSessions (st : storage) (now : Z) (userId : string)
  : option value * storage :=
  if negb (truthy_str userId) then (None, st)
  else
    match get st now ("sessions_" +:+ userId) with
    | (Some sessions, st') =>
        if isArray sessions then (Some sessions, st') else (None, st')
    | (None, st') => (None, st')
    end.

(** [cacheStats(userId, stats)] *)
Definition cacheStats (st : storage) (now : Z) (userId : string)
    (stats : value) : storage :=
  if negb (truthy_str userId) || negb (truthy stats) then st
  else (set st now ("stats_" +:+ userId) (Some stats) (Some 12)).2.

Definition getCachedStats (st : storage) (now : Z) (userId : string)
  : option value * storage :=
  if negb (truthy_str userId) then (None, st)
  else get st now ("stats_" +:+ userId).

Section Weather.
(** [String.prototype.toLowerCase] *)
Variable toLowerCase : string → string.

(** [cacheWeatherData(city, weather)] *)
Definition cacheWeatherData (st : storage) (now : Z) (city : string)
    (weather : value) : storage :=
  if negb (truthy_str city) || negb (truthy weather) then st
  else (set st now ("weather_" +:+ toLowerCase city) (Some weather) (Some 1)).2.

Definition getCachedWeatherData (st : storage) (now : Z) (city : string)
  : option value * storage :=
  if negb (truthy_str city) then (None, st)
  else get st now ("weather_" +:+ toLowerCase city).
End Weather.

(** *** Sync queue *)

(** [getSyncQueue()]: [Array.isArray(queue) ? queue : []].  The array under
    the sync-queue key is a [SyncQueue[]]; every other value gives []. *)
Definition getSyncQueue (st : storage) (now : Z) : list SyncQueue * storage :=
  match get st now SYNC_QUEUE_KEY with
  | (Some (VQueue queue), st') => (queue, st')
  | (_, st') => ([], st')
  end.

(** [addToSyncQueue(action, collection, data)].  [rnd] is the text of
    [Math.random().toString(36)]. *)
Definition addToSyncQueue (st : storage) (now : Z) (rnd : string)
    (action : Action) (collection : string) (data : value) : storage :=
  if negb (truthy_str collection) || negb (truthy data) then st
  else
    let '(syncQueue, st1) := getSyncQueue st now in
    let queueItem := mkSyncQueue (pretty now +:+ rnd) action collection data now 0 in
    (set st1 now SYNC_QUEUE_KEY (Some (VQueue (syncQueue ++ [queueItem]))) None).2.

(** *** The remote data service *)

(** A call received by [firestoreService]. *)
Inductive RemoteCall :=
  | getUserProfile (userId : string)
  | getUserSessions (userId : string) (limit : Z)
  | getWeightHistory (userId : string) (limit : Z)
  | getUserStats (userId : string)
  | saveUserProfile (userId profile : value)
  | addActivitySession (session : value)
  | addWeightEntry (userId weight : value) (notes : option value).

(** The behaviour of the remote service: how the promise of a call settles,
    given the calls it has received before. *)
Definition firestore := list RemoteCall → RemoteCall → outcome value.

(** [fs.method(args)]: the call is recorded, its promise settles. *)
Definition invoke (fs : firestore) (c : RemoteCall) (calls : list RemoteCall)
  : outcome value * list RemoteCall :=
  (fs calls c, calls ++ [c]).

Definition void (r : outcome value * list RemoteCall)
  : outcome unit * list RemoteCall :=
  match r with
  | (Ok _, calls) => (Ok tt, calls)
  | (Throw e, calls) => (Throw e, calls)
  end.

(** [v.k] inside a chain of [&&]: the field when it is truthy. *)
Definition truthy_prop (v : value) (k : string) : outcome (option value) :=
  match prop v k with
  | Ok (Some x) => if truthy x then Ok (Some x) else Ok None
  | Ok None => Ok None
  | Throw e => Throw e
  end.

(** [v.k] passed as an argument once [v] is known not to be [null]. *)
Definition prop_arg (v : value) (k : string) : option value :=
  match prop v k with Ok x => x | Throw _ => None end.

(** [executeSyncItem(item, firestoreService)]; [firestoreService = None] is
    a missing service. *)
Definition executeSyncItem (item : SyncQueue) (firestoreService : option firestore)
    (calls : list RemoteCall) : outcome unit * list RemoteCall :=
  match firestoreService with
  | None => (Throw "Invalid sync parameters", calls)
  | Some fs =>
      if String.eqb (collection item) "users" then
        if action_eqb (action item) update then
          match truthy_prop (data item) "userId" with
          | Throw e => (Throw e, calls)
          | Ok None => (Ok tt, calls)
          | Ok (Some userId) =>
              match truthy_prop (data item) "profile" with
              | Throw e => (Throw e, calls)
              | Ok None => (Ok tt, calls)
              | Ok (Some profile) => void (invoke fs (saveUserProfile userId profile) calls)
              end
          end
        else (Ok tt, calls)
      else if String.eqb (collection item) "sessions" then
        if action_eqb (action item) create then
          match truthy_prop (data item) "userId" with
          | Throw e => (Throw e, calls)
          | Ok None => (Ok tt, calls)
          | Ok (Some _) => void (invoke fs (addActivitySession (data item)) calls)
          end
        else (Ok tt, calls)
      else if String.eqb (collection item) "weights" then
        if action_eqb (action item) create then
          match truthy_prop (data item) "userId" with
          | Throw e => (Throw e, calls)
          | Ok None => (Ok tt, calls)
          | Ok (Some userId) =>
              match truthy_prop (data item) "weight" with
              | Throw e => (Throw e, calls)
              | Ok None => (Ok tt, calls)
              | Ok (Some weight) =>
                  void (invoke fs (addWeightEntry userId weight
                                     (prop_arg (data item) "notes")) calls)
              end
          end
        else (Ok tt, calls)
      else (Throw ("Unsupported collection: " +:+ collection item), calls)
  end.

(** [item.retryCount++] *)
Definition incr_retry (item : SyncQueue) : SyncQueue :=
  mkSyncQueue (id item) (action item) (collection item) (data item)
    (timestamp item) (retryCount item + 1).

(** What the [catch] of the loop does with a failed item: the surviving
    list after [item.retryCount++] and the test [item.retryCount < 3]. *)
Definition on_failure (item : SyncQueue) (remainingQueue : list SyncQueue)
  : list SyncQueue :=
  if retryCount (incr_retry item) <? 3 then remainingQueue ++ [incr_retry item]
  else remainingQueue.

(** The [for (const item of syncQueue)] loop of [syncPendingData]. *)
Fixpoint sync_loop (firestoreService : option firestore) (syncQueue : list SyncQueue)
    (syncedCount : Z) (remainingQueue : list SyncQueue) (calls : list RemoteCall)
  : Z * list SyncQueue * list RemoteCall :=
  match syncQueue with
  | [] => (syncedCount, remainingQueue, calls)
  | item :: rest =>
      match executeSyncItem item firestoreService calls with
      | (Ok _, calls') =>
          sync_loop firestoreService rest (syncedCount + 1) remainingQueue calls'
      | (Throw _, calls') =>
          sync_loop firestoreService rest syncedCount
            (on_failure item remainingQueue) calls'
      end
  end.

(** The service, the connectivity signal ([navigator = None] when there is
    no [navigator], otherwise [navigator.onLine]) and the calls the remote
    service has received so far. *)
Record world := mkWorld {
  svc : storage;
  navigator : option bool;
  calls : list RemoteCall;
}.

(** [isOnline()] *)
Definition isOnline (w : world) : bool :=
  match navigator w with Some onLine => onLine | None => true end.

(** [syncPendingData(firestoreService)], run to completion. *)
Definition syncPendingData (w : world) (now : Z) (firestoreService : option firestore)
  : Z * world :=
  if negb (isOnline w) then (0, w)
  else
    let '(syncQueue, st1) := getSyncQueue (svc w) now in
    match syncQueue with
    | [] => (0, mkWorld st1 (navigator w) (calls w))
    | _ :: _ =>
        let '(syncedCount, remainingQueue, calls') :=
          sync_loop firestoreService syncQueue 0 [] (calls w) in
        let st2 := (set st1 now SYNC_QUEUE_KEY (Some (VQueue remainingQueue)) None).2 in
        (syncedCount, mkWorld st2 (navigator w) calls')
    end.

(** *** Vocabulary of the statements *)

(** The store takes the writes of [set] where [get] reads them: it runs on
    the in-memory map, or [localStorage.setItem] does not throw. *)
Definition writable (st : storage) : bool :=
  negb (isStorageAvailable st && setItemThrows st).

(** The persisted sync queue is [q]: the entry under the sync-queue key
    holds it, with no expiry (as [addToSyncQueue] and [syncPendingData]
    write it). *)
Definition queue_is (st : storage) (q : list SyncQueue) : Prop :=
  ∃ t, read_entry st (PREFIX +:+ SYNC_QUEUE_KEY) = Some (mkCachedData (VQueue q) t None).

(** The remote write [executeSyncItem] hands [item] to, when it reaches one
    of its three [await firestoreService...] lines. *)
Definition dispatch (item : SyncQueue) : option RemoteCall :=
  match executeSyncItem item (Some (λ _ _, Ok VNull)) [] with
  | (_, [c]) => Some c
  | _ => None
  end.

(** The calls [dispatch item] stands for. *)
Definition sent (item : SyncQueue) : list RemoteCall :=
  match dispatch item with Some c => [c] | None => [] end.

(** The collection is one of the [case] labels of [executeSyncItem]. *)
Definition supported (collection : string) : bool :=
  String.eqb collection "users" || String.eqb collection "sessions"
  || String.eqb collection "weights".

(** The survivors of a pass in which every item failed: each with its
    [retryCount] one higher, kept when that is below 3. *)
Definition retried (q : list SyncQueue) : list SyncQueue :=
  List.filter (λ item, retryCount item <? 3) (incr_retry <$> q).

(** [st'] answers every [get] at time [now] as [st] does. *)
Definition reads_as (now : Z) (st st' : storage) : Prop :=
  ∀ key, (get st' now key).1 = (get st now key).1.

(** The remote service rejects every write. *)
Definition writes_always_fail (fs : firestore) : Prop :=
  ∀ calls c,
    match c with
    | saveUserProfile _ _ | addActivitySession _ | addWeightEntry _ _ _ =>
        ∃ e, fs calls c = Throw e
    | _ => True
    end.

(** [st'] holds the same sync-queue entry as [st] and takes writes as
    [st] does. *)
Definition same_queue (st st' : storage) : Prop :=
  read_entry st' (PREFIX +:+ SYNC_QUEUE_KEY) = read_entry st (PREFIX +:+ SYNC_QUEUE_KEY) ∧
  writable st' = writable st.

(** The remote service accepts every write. *)
Definition writes_always_succeed (fs : firestore) : Prop :=
  ∀ calls c,
    match c with
    | saveUserProfile _ _ | addActivitySession _ | addWeightEntry _ _ _ =>
        ∃ v, fs calls c = Ok v
    | _ => True
    end.

(** The items waiting in the store are [q]: the persisted queue is [q], or
    nothing is stored under the sync-queue key and [q] is empty. *)
Definition pending (st : storage) (q : list SyncQueue) : Prop :=
  queue_is st q ∨ (read_entry st (PREFIX +:+ SYNC_QUEUE_KEY) = None ∧ q = []).

End Storage.

(** ** The reads of the remote data service

    The read methods of [FirestoreService] ([services/firestore]).  Each
    wraps its calls to the Firestore SDK in a [try] whose [catch] logs the
    error and returns an empty result ([null] or []), so that the promise of
    a read never rejects.  The write methods log and re-throw: their
    promises settle as the SDK call does. *)

Module FirestoreService.
Import Storage.

(** How the reads of the Firestore SDK settle: [getDoc] on the document
    [collection/id] (its [data()], [None] when [exists()] is false) and
    [getDocs] on the query over a collection for a user with a limit (the
    documents found, each by its [id] and the fields of its [data()]). *)
Record sdk := mkSdk {
  getDoc : string → string → outcome (option value);
  getDocs : string → string → Z → outcome (list (string * list (string * value)));
}.

(** [{ id: doc.id, ...doc.data() }] *)
Definition with_id (doc : string * list (string * value)) : value :=
  VObj (foldl (λ fields kv, set_field kv.1 kv.2 fields) [("id", VStr doc.1)] doc.2).

(** [s.completed] as a condition. *)
Definition completed (s : value) : bool := truthy_opt (prop_arg s "completed").

Section Methods.

Variable db : sdk.

(** The object literal [getUserStats] returns, evaluated on the sessions
    read and those of them that are completed, when at least one is: it
    reads the clock and the dates of the sessions.  [Throw] when its
    evaluation throws. *)
Variable summary : list value → list value → outcome value.

(** [getUserProfile(userId)] *)
Definition getUserProfile (userId : string) : value :=
  match getDoc db "users" userId with
  | Ok (Some data) => data
  | Ok None => VNull
  | Throw _ => VNull
  end.

(** [getUserSessions(userId, limitCount)] *)
Definition getUserSessions (userId : string) (limitCount : Z) : list value :=
  match getDocs db "sessions" userId limitCount with
  | Ok docs => with_id <$> docs
  | Throw _ => []
  end.

(** [getWeightHistory(userId, limitCount)] *)
Definition getWeightHistory (userId : string) (limitCount : Z) : list value :=
  match getDocs db "weights" userId limitCount with
  | Ok docs => with_id <$> docs
  | Throw _ => []
  end.

(** [getUserStats(userId)].  With no completed session the literal is not
    built: [getFavoriteActivity] calls [reduce] without an initial value on
    the empty list of keys, the [TypeError] is caught and [null] is
    returned. *)
Definition getUserStats (userId : string) : value :=
  let sessions := getUserSessions userId 100 in
  let completedSessions := List.filter completed sessions in
  match completedSessions with
  | [] => VNull
  | _ :: _ =>
      match summary sessions completedSessions with
      | Ok stats => stats
      | Throw _ => VNull
      end
  end.

(** [firestoreService] as the routines of the application call it: the
    reads above; [writes] says how the SDK call of a write settles. *)
Definition service (writes : firestore) : firestore :=
  λ calls c,
    match c with
    | Storage.getUserProfile userId => Ok (getUserProfile userId)
    | Storage.getUserSessions userId limitCount =>
        Ok (VArr (getUserSessions userId limitCount))
    | Storage.getWeightHistory userId limitCount =>
        Ok (VArr (getWeightHistory userId limitCount))
    | Storage.getUserStats userId => Ok (getUserStats userId)
    | _ => writes calls c
    end.

End Methods.

End FirestoreService.

(** ** The application shell

    The load and save routines of [App.tsx].  A routine reads the React
    state ([authUser], [user], [isOnline], ...) of the render it was created
    in and queues updates with the setters; [Date.now()] is read once per
    routine (the times to live are hours, a routine lasts seconds). *)

Module App.
Import Storage.

(** [interface AuthUser], the field the routines read. *)
Record AuthUser := mkAuthUser { uid : string }.

(** The component state of [FitnessApp], and the in-app notifications
    shown so far as (title, message, kind). *)
Record ui := mkUi {
  authUser : option AuthUser;
  user : option value;
  weather : option value;
  sessions : list value;
  stats : option value;
  weightHistory : list value;
  loading : bool;
  isOnline : bool;
  notifications : list (string * string * string);
}.

Definition setAuthUser (u : ui) (x : option AuthUser) : ui :=
  mkUi x (user u) (weather u) (sessions u) (stats u) (weightHistory u)
    (loading u) (isOnline u) (notifications u).
Definition setUser (u : ui) (x : option value) : ui :=
  mkUi (authUser u) x (weather u) (sessions u) (stats u) (weightHistory u)
    (loading u) (isOnline u) (notifications u).
Definition setWeather (u : ui) (x : option value) : ui :=
  mkUi (authUser u) (user u) x (sessions u) (stats u) (weightHistory u)
    (loading u) (isOnline u) (notifications u).
Definition setSessions (u : ui) (x : list value) : ui :=
  mkUi (authUser u) (user u) (weather u) x (stats u) (weightHistory u)
    (loading u) (isOnline u) (notifications u).
Definition setStats (u : ui) (x : option value) : ui :=
  mkUi (authUser u) (user u) (weather u) (sessions u) x (weightHistory u)
    (loading u) (isOnline u) (notifications u).
Definition setWeightHistory (u : ui) (x : list value) : ui :=
  mkUi (authUser u) (user u) (weather u) (sessions u) (stats u) x
    (loading u) (isOnline u) (notifications u).
Definition setLoading (u : ui) (x : bool) : ui :=
  mkUi (authUser u) (user u) (weather u) (sessions u) (stats u) (weightHistory u)
    x (isOnline u) (notifications u).
Definition showInAppNotification (u : ui) (title message kind : string) : ui :=
  mkUi (authUser u) (user u) (weather u) (sessions u) (stats u) (weightHistory u)
    (loading u) (isOnline u) (notifications u ++ [(title, message, kind)]).

(** The running application: component state, storage service and the
    calls received by the remote data service. *)
Record app := mkApp {
  view : ui;
  store : storage;
  remote : list RemoteCall;
}.

(** [a || b] *)
Definition or_else (a : value) (b : option value) : option value :=
  if truthy a then Some a else b.

(** The elements of an array value (the typed [T[]] handed to a setter). *)
Definition elems (v : value) : list value :=
  match v with VArr l => l | _ => [] end.

(** [profile.city], a [string] when present. *)
Definition city_of (profile : value) : option string :=
  match prop_arg profile "city" with Some (VStr s) => Some s | _ => None end.

(** [userData.city || 'Paris'] *)
Definition city_or_Paris (profile : value) : string :=
  match city_of profile with
  | Some s => if truthy_str s then s else "Paris"
  | None => "Paris"
  end.

(** The profile [loadUserData] creates when none is found. *)
Definition default_profile : value :=
  VObj [("name", VStr "Utilisateur"); ("weight", VNum 70); ("height", VNum 170);
        ("age", VNum 30); ("goal", VStr "Améliorer ma forme");
        ("maxDuration", VNum 60); ("preferredActivity", VStr "marche");
        ("restDays", VArr [VStr "dimanche"]); ("city", VStr "Paris");
        ("notifications", VBool true); ("weeklyGoal", VNum 5);
        ("fitnessLevel", VStr "débutant")].


(** Where [handleUserUpdate] leaves the store before its weather block. *)
Definition saved_store (a : app) (now : Z) (rnd : string) (au : AuthUser)
    (updatedUser : list (string * value)) : storage :=
  let st1 := cacheUserProfile (store a) now (uid au) (VObj updatedUser) in
  if isOnline (view a) then st1
  else addToSyncQueue st1 now rnd update "users"
         (VObj [("userId", VStr (uid au)); ("profile", VObj updatedUser)]).

Section Routines.

Variable firestoreService : firestore.
(** [weatherService.getCurrentWeather(city)] *)
Variable getCurrentWeather : string → outcome value.
Variable toLowerCase : string → string.

(** [await Promise.all([getUserProfile, getUserSessions, getWeightHistory,
    getUserStats])]: the four calls are issued in order; the result is
    rejected with the reason of the first rejected call of the array. *)
Definition fetch_all (userId : string) (calls : list RemoteCall)
  : outcome (value * value * value * value) * list RemoteCall :=
  let '(r0, c0) := invoke firestoreService (getUserProfile userId) calls in
  let '(r1, c1) := invoke firestoreService (getUserSessions userId 20) c0 in
  let '(r2, c2) := invoke firestoreService (getWeightHistory userId 10) c1 in
  let '(r3, c3) := invoke firestoreService (getUserStats userId) c2 in
  match r0, r1, r2, r3 with
  | Ok f0, Ok f1, Ok f2, Ok f3 => (Ok (f0, f1, f2, f3), c3)
  | Throw e, _, _, _ => (Throw e, c3)
  | _, Throw e, _, _ => (Throw e, c3)
  | _, _, Throw e, _ => (Throw e, c3)
  | _, _, _, Throw e => (Throw e, c3)
  end.

(** The weather block that ends the [try] of [loadUserData]. *)
Definition load_weather (a : app) (now : Z) (online : bool) (userData : value)
  : app :=
  let city := city_or_Paris userData in
  let '(cachedWeather, st1) := getCachedWeatherData toLowerCase (store a) now city in
  let v1 := if truthy_opt cachedWeather then setWeather (view a) cachedWeather
            else view a in
  if online then
    match getCurrentWeather city with
    | Ok weatherData =>
        mkApp (setWeather v1 (Some weatherData))
          (cacheWeatherData toLowerCase st1 now city weatherData) (remote a)
    | Throw _ => mkApp v1 st1 (remote a)
    end
  else mkApp v1 st1 (remote a).

(** The [catch (err)] block of [loadUserData], up to its [throw err]. *)
Definition load_recover (a : app) (now : Z) (userId : string) : app :=
  let '(cachedProfile, st1) := getCachedUserProfile (store a) now userId in
  let '(cachedSessions, st2) := getCachedSessions st1 now userId in
  let '(cachedStats, st3) := getCachedStats st2 now userId in
  let v1 := if truthy_opt cachedProfile then setUser (view a) cachedProfile
            else view a in
  let v2 := match cachedSessions with
            | Some l => setSessions v1 (elems l)
            | None => v1
            end in
  let v3 := if truthy_opt cachedStats then setStats v2 cachedStats else v2 in
  mkApp v3 st3 (remote a).

(** The first part of the [try] block of [loadUserData]: the cache reads
    and, when online, the remote reads and the cache refresh.  [online] is
    the [isOnline] of the render that created the routine. *)
Definition load_fetch (a : app) (now : Z) (online : bool) (userId : string)
  : outcome (option value * option value * option value) * app :=
  let v0 := setLoading (view a) true in
  let '(userData, st1) := getCachedUserProfile (store a) now userId in
  let '(userSessions, st2) := getCachedSessions st1 now userId in
  let '(userStats, st3) := getCachedStats st2 now userId in
  if online then
    match fetch_all userId (remote a) with
    | (Ok (f0, f1, f2, f3), calls1) =>
        let userData := or_else f0 userData in
        let userSessions :=
          if truthy f1 then f1
          else match userSessions with Some l => l | None => VArr [] end in
        let userWeights := if truthy f2 then f2 else VArr [] in
        let userStats := or_else f3 userStats in
        let st4 := if truthy_opt userData
                   then cacheUserProfile st3 now userId
                          (match userData with Some p => p | None => VNull end)
                   else st3 in
        let st5 := if truthy userSessions
                   then cacheSessions st4 now userId userSessions else st4 in
        let st6 := if truthy_opt userStats
                   then cacheStats st5 now userId
                          (match userStats with Some x => x | None => VNull end)
                   else st5 in
        (Ok (userData, Some userSessions, userStats),
         mkApp (setWeightHistory v0 (elems userWeights)) st6 calls1)
    | (Throw e, calls1) => (Throw e, mkApp v0 st3 calls1)
    end
  else (Ok (userData, userSessions, userStats), mkApp v0 st3 (remote a)).

(** [if (!userData) { ... }]: the default profile, saved remotely when
    online and cached. *)
Definition load_default (a : app) (now : Z) (online : bool) (userId : string)
    (userData : option value) : outcome (option value) * app :=
  if truthy_opt userData then (Ok userData, a)
  else if online then
    match invoke firestoreService
            (saveUserProfile (VStr userId) default_profile) (remote a) with
    | (Ok _, calls2) =>
        (Ok (Some default_profile),
         mkApp (view a) (cacheUserProfile (store a) now userId default_profile) calls2)
    | (Throw e, calls2) => (Throw e, mkApp (view a) (store a) calls2)
    end
  else
    (Ok (Some default_profile),
     mkApp (view a) (cacheUserProfile (store a) now userId default_profile) (remote a)).

(** The [try] block of [loadUserData]: its completion and the state it
    leaves. *)
Definition load_try (a : app) (now : Z) (online : bool) (userId : string)
  : outcome unit * app :=
  match load_fetch a now online userId with
  | (Throw e, a1) => (Throw e, a1)
  | (Ok (userData, userSessions, userStats), a1) =>
      match load_default a1 now online userId userData with
      | (Throw e, a2) => (Throw e, a2)
      | (Ok userData, a2) =>
          let v1 := setUser (view a2) userData in
          let v2 := setSessions v1
                      (match userSessions with Some l => elems l | None => [] end) in
          let v3 := setStats v2 userStats in
          (Ok tt,
           load_weather (mkApp v3 (store a2) (remote a2)) now online
             (match userData with Some p => p | None => VNull end))
      end
  end.

(** [finally { setLoading(false) }] *)
Definition load_finally (a : app) : app :=
  mkApp (setLoading (view a) false) (store a) (remote a).

(** [loadUserData(userId)]: the completion seen by the caller ([Throw]
    is a rejected promise) and the state left. *)
Definition loadUserData (a : app) (now : Z) (userId : string)
  : outcome unit * app :=
  match load_try a now (isOnline (view a)) userId with
  | (Ok _, a1) => (Ok tt, load_finally a1)
  | (Throw err, a1) =>
      (* catch (err) { ...; throw err } *)
      (Throw err, load_finally (load_recover a1 now userId))
  end.

(** [{...updatedUser, notifications: updatedUser.notifications !==
    undefined ? updatedUser.notifications : true}] *)
Definition with_notifications (updatedUser : list (string * value)) : value :=
  VObj (set_field "notifications"
          (match assoc "notifications" updatedUser with
           | Some n => n
           | None => VBool true
           end) updatedUser).

(** [updatedUser.city !== user?.city && updatedUser.city] *)
Definition city_changed (updatedUser : value) (user : option value)
  : option string :=
  let old := match user with Some u => city_of u | None => None end in
  match city_of updatedUser with
  | Some city =>
      if bool_decide (Some city ≠ old) && truthy_str city then Some city else None
  | None => None
  end.

(** [handleUserUpdate(updatedUser)]; [updatedUser] is an object, given by
    its fields. *)
Definition handleUserUpdate (a : app) (now : Z) (rnd : string)
    (updatedUser : list (string * value)) : app :=
  match authUser (view a) with
  | None => a
  | Some au =>
      let v1 := setUser (view a) (Some (VObj updatedUser)) in
      let st1 := cacheUserProfile (store a) now (uid au) (VObj updatedUser) in
      let saved : outcome unit * app :=
        if isOnline (view a) then
          match invoke firestoreService
                  (saveUserProfile (VStr (uid au)) (with_notifications updatedUser))
                  (remote a) with
          | (Ok _, calls1) => (Ok tt, mkApp v1 st1 calls1)
          | (Throw e, calls1) => (Throw e, mkApp v1 st1 calls1)
          end
        else
          (Ok tt,
           mkApp v1
             (addToSyncQueue st1 now rnd update "users"
                (VObj [("userId", VStr (uid au)); ("profile", VObj updatedUser)]))
             (remote a)) in
      match saved with
      | (Ok _, a1) =>
          match city_changed (VObj updatedUser) (user (view a)) with
          | Some city =>
              match getCurrentWeather city with
              | Ok newWeather =>
                  mkApp (setWeather (view a1) (Some newWeather))
                    (cacheWeatherData toLowerCase (store a1) now city newWeather)
                    (remote a1)
              | Throw _ => a1
              end
          | None => a1
          end
      | (Throw _, a1) =>
          mkApp (showInAppNotification (view a1) "Erreur de sauvegarde"
                   "Vos modifications seront synchronisées plus tard" "warning")
            (store a1) (remote a1)
      end
  end.

(** [handleRegister({ user, profileData })]; [profileData] is an object,
    given by its fields.  (The daily reminder it schedules at the end lives
    in the notification service and is not part of this state.) *)
Definition handleRegister (a : app) (now : Z) (rnd : string) (newUser : AuthUser)
    (profileData : list (string * value)) : app :=
  let v1 := setUser (setAuthUser (view a) (Some newUser)) (Some (VObj profileData)) in
  let saved : outcome unit * app :=
    if isOnline (view a) then
      match invoke firestoreService
              (saveUserProfile (VStr (uid newUser)) (with_notifications profileData))
              (remote a) with
      | (Ok _, calls1) => (Ok tt, mkApp v1 (store a) calls1)
      | (Throw e, calls1) => (Throw e, mkApp v1 (store a) calls1)
      end
    else
      (Ok tt,
       mkApp v1
         (addToSyncQueue (store a) now rnd create "users"
            (VObj [("userId", VStr (uid newUser)); ("profile", VObj profileData)]))
         (remote a)) in
  match saved with
  | (Ok _, a1) =>
      let st2 := cacheUserProfile (store a1) now (uid newUser) (VObj profileData) in
      let city := city_or_Paris (VObj profileData) in
      let '(v2, st3) :=
        match getCurrentWeather city with
        | Ok weatherData =>
            (setWeather (view a1) (Some weatherData),
             cacheWeatherData toLowerCase st2 now city weatherData)
        | Throw _ =>
            (setWeather (view a1)
               (Some (VObj [("temp", VNum 20); ("condition", VStr "sunny");
                            ("humidity", VNum 60); ("windSpeed", VNum 10)])),
             st2)
        end in
      let v3 := setStats v2
                  (Some (VObj [("totalSessions", VNum 0); ("totalCalories", VNum 0);
                               ("streakDays", VNum 0); ("weeklyAverage", VNum 0);
                               ("favoriteActivity", VStr "marche");
                               ("monthlyProgress", VNum 0)])) in
      mkApp (showInAppNotification v3 "Compte créé avec succès !"
               "Bienvenue dans FitPlan !" "success")
        st3 (remote a1)
  | (Throw _, a1) =>
      mkApp (showInAppNotification (view a1) "Erreur de création"
               "Veuillez réessayer" "error")
        (store a1) (remote a1)
  end.

(** [{...user, weight}] *)
Definition with_weight (user : value) (weight : Z) : value :=
  match user with
  | VObj fields => VObj (set_field "weight" (VNum weight) fields)
  | _ => VObj [("weight", VNum weight)]
  end.

(** [handleWeightUpdate(weight)] *)
Definition handleWeightUpdate (a : app) (weight : Z) : app :=
  match user (view a), authUser (view a) with
  | Some u, Some au =>
      if truthy u then
        let v1 := setUser (view a) (Some (with_weight u weight)) in
        match invoke firestoreService (getWeightHistory (uid au) 10) (remote a) with
        | (Ok history, calls1) =>
            mkApp (setWeightHistory v1 (elems history)) (store a) calls1
        | (Throw _, calls1) => mkApp v1 (store a) calls1
        end
      else a
  | _, _ => a
  end.

(** A value inside a template literal, for the strings the routines
    format. *)
Definition text (x : option value) : string :=
  match x with
  | Some (VStr t) => t
  | Some (VNum n) => pretty n
  | _ => ""
  end.

Definition field (k : string) (x : option value) : list (string * value) :=
  match x with Some v => [(k, v)] | None => [] end.

(** [a || b] where both may be [undefined]. *)
Definition or_opt (a b : option value) : option value :=
  if truthy_opt a then a else b.

(** The [session] object built by [handleActivityComplete]; [date] is
    the reading of the clock. *)
Definition new_session (userId : string) (plan weather : value) (now : Z)
    (actualDuration rating notes : option value) : list (string * value) :=
  [("userId", VStr userId)]
  ++ field "activity" (prop_arg plan "activity")
  ++ field "duration" (prop_arg plan "duration")
  ++ field "actualDuration" (or_opt actualDuration (prop_arg plan "duration"))
  ++ field "intensity" (prop_arg plan "intensity")
  ++ [("weather", VObj (field "temp" (prop_arg weather "temp")
                        ++ field "condition" (prop_arg weather "condition")));
      ("completed", VBool true);
      ("date", VNum now)]
  ++ field "calories" (prop_arg plan "calories")
  ++ field "notes" (or_opt notes (Some (VStr "")))
  ++ field "rating" (or_opt rating (Some (VNum 5))).

(** [user?.weeklyGoal || 5] *)
Definition weekly_goal (user : option value) : Z :=
  match user with
  | Some u =>
      match prop_arg u "weeklyGoal" with
      | Some (VNum n) => if n =? 0 then 5 else n
      | _ => 5
      end
  | None => 5
  end.

(** [handleActivityComplete(plan, actualDuration, rating, notes)] *)
Definition handleActivityComplete (a : app) (now : Z) (rnd : string)
    (plan : value) (actualDuration rating notes : option value) : app :=
  match authUser (view a), weather (view a) with
  | Some au, Some wth =>
      if negb (truthy wth) then a else
      let session := new_session (uid au) plan wth now actualDuration rating notes in
      let v1 := setSessions (view a) (VObj session :: sessions (view a)) in
      let saved : outcome unit * app :=
        if isOnline (view a) then
          match invoke firestoreService
                  (addActivitySession
                     (VObj (set_field "id"
                              (match assoc "id" session with
                               | Some (VNull) | None => VStr ""
                               | Some i => i
                               end) session)))
                  (remote a) with
          | (Ok _, calls1) => (Ok tt, mkApp v1 (store a) calls1)
          | (Throw e, calls1) => (Throw e, mkApp v1 (store a) calls1)
          end
        else
          (Ok tt,
           mkApp v1 (addToSyncQueue (store a) now rnd create "sessions" (VObj session))
             (remote a)) in
      let warn (a1 : app) :=
        mkApp (showInAppNotification (view a1) "Erreur d'enregistrement"
                 "La séance sera synchronisée plus tard" "warning")
          (store a1) (remote a1) in
      match saved with
      | (Throw _, a1) => warn a1
      | (Ok _, a1) =>
          match loadUserData a1 now (uid au) with
          | (Throw _, a2) => warn a2
          | (Ok _, a2) =>
              let v2 := showInAppNotification (view a2) "Séance terminée !"
                          ("Bravo pour cette séance de "
                           +:+ text (prop_arg plan "activity") +:+ " !")
                          "success" in
              let v3 :=
                if truthy_opt (stats (view a))
                   && (weekly_goal (user (view a))
                       <=? Z.of_nat (length (sessions (view a))) + 1)
                then (* notificationService.notifyGoalAchieved('weekly', n) *)
                  showInAppNotification v2 "Objectif atteint !"
                    ("Objectif hebdomadaire atteint ! "
                     +:+ pretty (Z.of_nat (length (sessions (view a))) + 1)
                     +:+ " séances cette semaine !") "info"
                else v2 in
              mkApp v3 (store a2) (remote a2)
          end
      end
  | _, _ => a
  end.

(** [handleLogout()]; [signOut] is how [authService.signOut()] settles. *)
Definition handleLogout (a : app) (signOut : outcome unit) : app :=
  match signOut with
  | Ok _ =>
      let v1 := setAuthUser (view a) None in
      let v2 := setUser v1 None in
      let v3 := setSessions v2 [] in
      let v4 := setStats v3 None in
      let v5 := setWeather v4 None in
      let v6 := setWeightHistory v5 [] in
      mkApp (showInAppNotification v6 "Déconnexion réussie" "À bientôt !" "info")
        (clear (store a)).2 (remote a)
  | Throw _ => a
  end.

(** The application with the [error] state of the component, which only
    [initializeApp] writes. *)
Record shell := mkShell {
  running : app;
  error_message : option string;
}.

(** [initializeApp()]; [currentUser] is the answer of
    [authService.getCurrentUser()]. *)
Definition initializeApp (s : shell) (now : Z) (currentUser : option AuthUser)
  : shell :=
  let a0 := mkApp (setLoading (view (running s)) true) (store (running s))
              (remote (running s)) in
  let '(completion, a1) :=
    match currentUser with
    | Some u =>
        loadUserData (mkApp (setAuthUser (view a0) (Some u)) (store a0) (remote a0))
          now (uid u)
    | None => (Ok tt, a0)
    end in
  let a2 := mkApp (setLoading (view a1) false) (store a1) (remote a1) in
  match completion with
  | Ok _ => mkShell a2 None
  | Throw _ => mkShell a2 (Some "Erreur lors de l'initialisation")
  end.

End Routines.

End App.

(** ** Overlapping drains

    [syncPendingData] is an [async] function: it runs until its next
    [await] and gives control back, so that a second invocation (a second
    [online] event) can start while the first waits for the remote service.
    An invocation is cut here at its [await]s.  The snapshot of an
    invocation is its own copy of the queue, as [JSON.parse] produces it
    when the service runs on [localStorage]. *)

Module Overlap.
Import Storage.


Section Invocation.

Variable firestoreService : option firestore.






End Invocation.

End Overlap.

(** ** Sample data

    Concrete payloads, stores and remote services on which the statements
    below are evaluated. *)

Module Sample.
Import Storage.

Definition profile : value :=
  VObj [("name", VStr "Ann"); ("weight", VNum 70); ("city", VStr "Paris")].

(** The payload [handleUserUpdate] and [handleRegister] enqueue. *)
Definition profile_payload : value :=
  VObj [("userId", VStr "u1"); ("profile", profile)].

(** [toLowerCase] on the letters A-Z. *)
Definition lower_ascii (c : Ascii.ascii) : Ascii.ascii :=
  let n := Ascii.N_of_ascii c in
  if ((65 <=? n) && (n <=? 90))%N then Ascii.ascii_of_N (n + 32) else c.

Fixpoint lower (s : string) : string :=
  match s with
  | EmptyString => EmptyString
  | String c rest => String (lower_ascii c) (lower rest)
  end.

(** A weather service that cannot be reached. *)
Definition no_weather : string → outcome value := λ _, Throw "weather unavailable".

(** A store on a working [localStorage], with nothing in it. *)
Definition fresh : storage := mkStorage true ∅ false ∅.

(** A remote service that rejects every call. *)
Definition down : firestore := λ _ _, Throw "unavailable".

(** A remote service that accepts every call. *)
Definition up : firestore := λ _ _, Ok VNull.

(** One pending profile update, enqueued at time 1000, online again. *)
Definition one_update : world :=
  mkWorld (addToSyncQueue fresh 1000 "0.4fzyo82mvyr" update "users" profile_payload)
    (Some true) [].

Definition update_item : SyncQueue :=
  mkSyncQueue (pretty 1000 +:+ "0.4fzyo82mvyr") update "users" profile_payload 1000 0.

(** What [handleRegister] leaves in the queue when offline (a [create] on
    [users]), followed by an item of a collection without a [case]. *)
Definition register_then_meal : world :=
  mkWorld
    (addToSyncQueue
       (addToSyncQueue fresh 1000 "0.4fzyo82mvyr" create "users" profile_payload)
       1001 "0.k2j9x" create "meals" (VObj [("userId", VStr "u1")]))
    (Some true) [].

(** The fields of [profile]. *)
Definition profile_fields : list (string * value) :=
  [("name", VStr "Ann"); ("weight", VNum 70); ("city", VStr "Paris")].

(** The application before anyone has signed in, on a fresh store. *)
Definition signed_out (online : bool) : App.app :=
  App.mkApp (App.mkUi None None None [] None [] false online []) fresh [].

(** User [u1] registers at time 1000 while offline; the connection then
    comes back. *)
Definition register_only : world :=
  mkWorld
    (App.store
       (App.handleRegister up no_weather lower
          (signed_out false) 1000 "0.4fzyo82mvyr" (App.mkAuthUser "u1") profile_fields))
    (Some true) [].

(** [one_update] with the connection lost. *)
Definition one_update_offline : world :=
  mkWorld (svc one_update) (Some false) [].

Definition sunny : value := VObj [("temp", VNum 20); ("condition", VStr "sunny")].

Definition plan : value :=
  VObj [("activity", VStr "marche"); ("duration", VNum 30);
        ("intensity", VStr "modérée"); ("calories", VNum 150)].

Definition old_session : value :=
  VObj [("userId", VStr "u1"); ("activity", VStr "yoga"); ("completed", VBool true)].

(** The store after a load at time 1000: profile and sessions of user
    [u1] are cached. *)
Definition cached : storage :=
  cacheSessions (cacheUserProfile fresh 1000 "u1" profile) 1000 "u1"
    (VArr [old_session]).

(** User [u1] signed in, profile and sessions on screen and in the cache. *)
Definition signed_in (online : bool) : App.app :=
  App.mkApp
    (App.mkUi (Some (App.mkAuthUser "u1")) (Some profile) (Some sunny) [old_session]
       None [] false online [])
    cached [].

(** The fields of [profile] with another weight and city. *)
Definition new_profile : list (string * value) :=
  [("name", VStr "Ann"); ("weight", VNum 68); ("city", VStr "Lyon")].





(** A Firestore backend that cannot be reached: every read of the SDK
    rejects. *)
Definition unreachable : FirestoreService.sdk :=
  FirestoreService.mkSdk (λ _ _, Throw "unavailable") (λ _ _ _, Throw "unavailable").

(** [one_update] once [localStorage] takes no more writes. *)
Definition one_update_full : world :=
  mkWorld (mkStorage true (localStorage (svc one_update)) true ∅) (Some true) [].

(** Statistics are not computed in the samples. *)
Definition no_summary : list value → list value → outcome value :=
  λ _ _, Throw "no clock".

End Sample.

Import Storage.

(** * Properties *)

(** ** The key-value cache *)

Section CacheFacts.

Implicit Types (st : storage) (key k : string) (now : Z) (c : CachedData).

Lemma startsWith_app p k : startsWith (p +:+ k) p = true.
Proof.
  unfold startsWith. induction p as [|a p IH]; simpl.
  - by destruct k.
  - destruct (Ascii.ascii_dec a a); [exact IH | done].
Qed.

Lemma truthy_str_ne s : truthy_str s = true ↔ s ≠ "".
Proof. destruct s; simpl; split; congruence. Qed.

Lemma app_inj_prefix (p a b : string) : p +:+ a = p +:+ b → a = b.
Proof. induction p as [|x p IH]; simpl; [done | intros [= H]; auto]. Qed.

Lemma read_entry_remove st key :
  key ≠ "" → read_entry (remove st key).2 (PREFIX +:+ key) = None.
Proof.
  intros Hk%truthy_str_ne. unfold remove, read_entry. rewrite Hk. simpl.
  destruct (isStorageAvailable st) eqn:Ha; simpl; rewrite Ha;
    by rewrite lookup_delete_eq.
Qed.

Lemma set_isStorageAvailable st now key v h :
  isStorageAvailable (set st now key v h).2 = isStorageAvailable st.
Proof.
  unfold set, localStorage_setItem.
  destruct (truthy_str key), v, (isStorageAvailable st) eqn:Ha, (setItemThrows st) eqn:Ht;
    simpl; rewrite ?Ha, ?Ht; done.
Qed.

Lemma set_setItemThrows st now key v h :
  setItemThrows (set st now key v h).2 = setItemThrows st.
Proof.
  unfold set, localStorage_setItem.
  destruct (truthy_str key), v, (isStorageAvailable st) eqn:Ha, (setItemThrows st) eqn:Ht;
    simpl; rewrite ?Ha, ?Ht; done.
Qed.

Lemma set_writable st now key v h :
  writable (set st now key v h).2 = writable st.
Proof. unfold writable. by rewrite set_isStorageAvailable, set_setItemThrows. Qed.

(** On a writable store [set] succeeds and leaves the entry where [get]
    reads it. *)
Lemma set_read_entry st now key v h :
  key ≠ "" → writable st = true →
  (set st now key (Some v) h).1 = true ∧
  read_entry (set st now key (Some v) h).2 (PREFIX +:+ key)
    = Some (mkCachedData v now (expiry_of now h)).
Proof.
  intros Hk%truthy_str_ne Hw. unfold writable in Hw.
  unfold set, localStorage_setItem, read_entry. rewrite Hk. simpl.
  destruct (isStorageAvailable st) eqn:Ha, (setItemThrows st) eqn:Ht;
    simpl in *; try done; rewrite ?Ha; by rewrite lookup_insert_eq.
Qed.

Lemma set_read_entry_ne st now key v h k :
  k ≠ PREFIX +:+ key →
  read_entry (set st now key v h).2 k = read_entry st k.
Proof.
  intros Hne. unfold set, localStorage_setItem, read_entry.
  destruct (truthy_str key), v as [v|]; simpl; try done.
  destruct (isStorageAvailable st) eqn:Ha, (setItemThrows st) eqn:Ht;
    simpl; rewrite ?Ha; try done; by rewrite lookup_insert_ne.
Qed.

Lemma get_unexpired st now key c :
  key ≠ "" → read_entry st (PREFIX +:+ key) = Some c → expired now c = false →
  get st now key = (Some (cd_data c), st).
Proof.
  intros Hk%truthy_str_ne Hr He. unfold get. by rewrite Hk, Hr, He.
Qed.

Lemma delete_all_lookup {V} (ks : list string) (m : gmap string V) k :
  delete_all ks m !! k = if decide (k ∈ ks) then None else m !! k.
Proof.
  unfold delete_all. revert m. induction ks as [|x ks IH]; intros m; simpl.
  - destruct (decide (k ∈ [])) as [Hin|Hin]; [by apply elem_of_nil in Hin | done].
  - rewrite IH. destruct (decide (k = x)) as [->|Hne].
    + rewrite lookup_delete_eq.
      destruct (decide (x ∈ x :: ks)) as [|Hn]; [by destruct (decide (x ∈ ks)) |].
      exfalso. apply Hn, elem_of_cons. by left.
    + rewrite lookup_delete_ne by done.
      destruct (decide (k ∈ ks)) as [Hin|Hin], (decide (k ∈ x :: ks)) as [Hc|Hc];
        try done.
      * exfalso. apply Hc, elem_of_cons. by right.
      * apply elem_of_cons in Hc as [?|?]; done.
Qed.

Lemma elem_of_keys {V} (m : gmap string V) k : k ∈ keys m ↔ is_Some (m !! k).
Proof.
  unfold keys. rewrite list_elem_of_fmap. split.
  - intros [[k' v] [-> Hin%elem_of_map_to_list]]. by exists v.
  - intros [v Hv]. exists (k, v). split; [done | by apply elem_of_map_to_list].
Qed.

(** Deleting the keys that carry the prefix. *)
Lemma clear_lookup {V} (m : gmap string V) k :
  delete_all (List.filter (λ key, startsWith key PREFIX) (keys m)) m !! k
  = if startsWith k PREFIX then None else m !! k.
Proof.
  rewrite delete_all_lookup.
  destruct (startsWith k PREFIX) eqn:Hp.
  - destruct (decide _) as [Hin|Hin]; [done |].
    destruct (m !! k) eqn:Hm; [| done].
    exfalso. apply Hin. apply list_elem_of_In, filter_In. split; [| done].
    apply list_elem_of_In, elem_of_keys. by rewrite Hm.
  - destruct (decide _) as [Hin|Hin]; [| done].
    apply list_elem_of_In, filter_In in Hin as [_ Hin]. congruence.
Qed.

End CacheFacts.

Section CacheClaims.

Implicit Types (st : storage) (key k : string) (now : Z) (c : CachedData).

(** On a writable store, a value written by [set] without a time-to-live is
    read back by [get] at any later time. *)
Lemma set_get_roundtrip st now now' key v :
  key ≠ "" → writable st = true →
  get (set st now key (Some v) None).2 now' key
  = (Some v, (set st now key (Some v) None).2).
Proof.
  intros Hk Hw.
  destruct (set_read_entry st now key v None Hk Hw) as [_ Hr].
  by rewrite (get_unexpired _ now' key _ Hk Hr).
Qed.




(** C8: [clear] returns success, removes from the store it runs on exactly
    the entries whose key starts with the prefix of the application and
    leaves every other entry, in particular keys set by others in the same
    [localStorage], as it was. *)
Theorem clear_namespace st :
  (clear st).1 = true ∧
  isStorageAvailable (clear st).2 = isStorageAvailable st ∧
  setItemThrows (clear st).2 = setItemThrows st ∧
  if isStorageAvailable st then
    (∀ k, localStorage (clear st).2 !! k
          = if startsWith k PREFIX then None else localStorage st !! k) ∧
    inMemoryStorage (clear st).2 = inMemoryStorage st
  else
    (∀ k, inMemoryStorage (clear st).2 !! k
          = if startsWith k PREFIX then None else inMemoryStorage st !! k) ∧
    localStorage (clear st).2 = localStorage st.
Proof.
  unfold clear. destruct (isStorageAvailable st) eqn:Ha; simpl;
    (split; [done | split; [done | split; [done | split; [| done]]]]);
    intros k; apply clear_lookup.
Qed.

(** C10 at its failing input: [localStorage] is available and [setItem]
    throws; [set] writes the in-memory map and returns [true], and the
    [get] that follows reads [localStorage] and returns [null]. *)
Theorem set_fallback_not_read_back :
  let st := mkStorage true ∅ true ∅ in
  (set st 0 "k" (Some (VNum 1)) None).1 = true ∧
  inMemoryStorage (set st 0 "k" (Some (VNum 1)) None).2 !! (PREFIX +:+ "k")
    = Some (mkCachedData (VNum 1) 0 None) ∧
  (get (set st 0 "k" (Some (VNum 1)) None).2 0 "k").1 = None.
Proof. split; [reflexivity | split; reflexivity]. Qed.

End CacheClaims.

(** ** The sync queue and its reconciliation pass *)

Section SyncFacts.

Implicit Types (st : storage) (w : world) (fs : firestore) (item : SyncQueue)
  (q : list SyncQueue) (now : Z).

(** [executeSyncItem] makes the call [dispatch] names, and no other. *)
Lemma executeSyncItem_calls item fs calls :
  (executeSyncItem item (Some fs) calls).2 = calls ++ sent item.
Proof.
  unfold sent, dispatch, executeSyncItem, void, invoke.
  repeat case_match; simplify_eq/=; rewrite ?app_nil_r; try done.
Qed.

Lemma executeSyncItem_dispatch item fs calls c :
  dispatch item = Some c →
  executeSyncItem item (Some fs) calls = void (invoke fs c calls).
Proof.
  unfold dispatch, executeSyncItem, void, invoke.
  repeat case_match; simplify_eq/=; try done; intros; simplify_eq; congruence.
Qed.

(** An item that reaches a remote write fails when all writes fail. *)
Lemma executeSyncItem_rejected item fs calls c :
  writes_always_fail fs → dispatch item = Some c →
  ∃ e, (executeSyncItem item (Some fs) calls).1 = Throw e.
Proof.
  intros Hfail Hd. rewrite (executeSyncItem_dispatch _ _ _ _ Hd).
  assert (∃ e, fs calls c = Throw e) as [e He].
  { specialize (Hfail calls c). revert Hd Hfail.
    unfold dispatch, executeSyncItem, void, invoke.
    repeat case_match; simplify_eq/=; try done; intros; simplify_eq; done. }
  exists e. unfold invoke, void. by rewrite He.
Qed.

Lemma sync_loop_all_fail fs q n remainingQueue calls :
  (∀ item calls', item ∈ q →
     ∃ e, (executeSyncItem item (Some fs) calls').1 = Throw e) →
  sync_loop (Some fs) q n remainingQueue calls
  = (n, remainingQueue ++ retried q, calls ++ concat (sent <$> q)).
Proof.
  revert remainingQueue calls.
  induction q as [|item q IH]; intros remainingQueue calls Hall.
  - simpl. by rewrite !app_nil_r.
  - destruct (Hall item calls) as [e He]; [by left |].
    pose proof (executeSyncItem_calls item fs calls) as Hc.
    cbn [sync_loop].
    destruct (executeSyncItem item (Some fs) calls) as [[[]|e'] calls'];
      cbn [fst snd] in *; [done |]. subst calls'.
    rewrite IH by (intros; apply Hall; by right).
    unfold on_failure, retried. cbn [fmap list_fmap List.filter concat].
    destruct (retryCount (incr_retry item) <? 3); by rewrite <- !app_assoc.
Qed.

Lemma getSyncQueue_queue_is st now q :
  queue_is st q → getSyncQueue st now = (q, st).
Proof.
  intros [t Hr]. unfold getSyncQueue.
  by rewrite (get_unexpired st now SYNC_QUEUE_KEY _ ltac:(done) Hr).
Qed.

Lemma set_queue_is st now q :
  writable st = true →
  queue_is (set st now SYNC_QUEUE_KEY (Some (VQueue q)) None).2 q.
Proof.
  intros Hw. exists now.
  by destruct (set_read_entry st now SYNC_QUEUE_KEY (VQueue q) None ltac:(done) Hw).
Qed.

(** One online pass over a queue on which every item fails. *)
Lemma syncPendingData_all_fail w now fs q :
  isOnline w = true → writable (svc w) = true → queue_is (svc w) q →
  (∀ item calls', item ∈ q →
     ∃ e, (executeSyncItem item (Some fs) calls').1 = Throw e) →
  let r := syncPendingData w now (Some fs) in
  r.1 = 0 ∧ isOnline r.2 = true ∧ writable (svc r.2) = true ∧
  queue_is (svc r.2) (retried q) ∧
  calls r.2 = calls w ++ concat (sent <$> q).
Proof.
  intros Hon Hw Hq Hall. unfold syncPendingData.
  rewrite Hon, (getSyncQueue_queue_is _ now _ Hq). simpl.
  destruct q as [|item q'] eqn:Eq.
  - simpl. by rewrite app_nil_r.
  - rewrite <- Eq in *. rewrite (sync_loop_all_fail fs q 0 [] (calls w) Hall).
    simpl. repeat split; try done.
    + by rewrite set_writable.
    + by apply set_queue_is.
Qed.

End SyncFacts.

Section SyncClaims.

Implicit Types (st : storage) (w : world) (fs : firestore) (item : SyncQueue)
  (q : list SyncQueue) (now : Z).

(** An item of a collection outside the three cases fails, whatever the
    remote service does, and reaches no remote write. *)
Lemma executeSyncItem_unsupported item fs calls :
  supported (collection item) = false →
  executeSyncItem item (Some fs) calls
  = (Throw ("Unsupported collection: " +:+ collection item), calls).
Proof.
  unfold supported, executeSyncItem. intros H.
  apply orb_false_iff in H as [[H1 H2]%orb_false_iff H3].
  by rewrite H1, H2, H3.
Qed.

Lemma dispatch_incr_retry item : dispatch (incr_retry item) = dispatch item.
Proof. by destruct item. Qed.

Lemma sent_dispatch item c : dispatch item = Some c → sent item = [c].
Proof. unfold sent. by intros ->. Qed.

Lemma retried_one item :
  retryCount item + 1 < 3 → retried [item] = [incr_retry item].
Proof.
  intros H. unfold retried. simpl.
  destruct (retryCount item + 1 <? 3) eqn:E; [done | lia].
Qed.

Lemma retried_last item : ¬ retryCount item + 1 < 3 → retried [item] = [].
Proof.
  intros H. unfold retried. simpl.
  destruct (retryCount item + 1 <? 3) eqn:E; [lia | done].
Qed.

(** Every item of [q] fails on each pass against [fs]. *)
Lemma failing_items fs q :
  writes_always_fail fs →
  (∀ item, item ∈ q →
     is_Some (dispatch item) ∨ supported (collection item) = false) →
  ∀ item calls', item ∈ q →
    ∃ e, (executeSyncItem item (Some fs) calls').1 = Throw e.
Proof.
  intros Hfail Hq item calls' Hin.
  destruct (Hq item Hin) as [[c Hc]|Hu].
  - by eapply executeSyncItem_rejected.
  - rewrite executeSyncItem_unsupported by done. by eexists.
Qed.

(** C1 (amended): while online, on a store that takes the write, and
    against a remote service whose writes always fail, a drain pass over
    items that reach a remote write (or whose collection is unsupported, which
    fail without reaching the remote) counts no success, raises the
    [retryCount] of each item by exactly one, keeps an item exactly when the
    raised count is below 3, and sends each dispatched write once.  So an
    item that reaches a remote write and was enqueued with [retryCount = 0]
    is sent to the remote exactly three times over three successive drains
    and the queue is empty after the third. *)
Theorem bounded_retry w fs :
  isOnline w = true → writable (svc w) = true → writes_always_fail fs →
  (∀ q now,
     queue_is (svc w) q →
     (∀ item, item ∈ q →
        is_Some (dispatch item) ∨ supported (collection item) = false) →
     let r := syncPendingData w now (Some fs) in
     r.1 = 0 ∧ queue_is (svc r.2) (retried q) ∧
     calls r.2 = calls w ++ concat (sent <$> q)) ∧
  (∀ item c t1 t2 t3,
     queue_is (svc w) [item] → retryCount item = 0 → dispatch item = Some c →
     let w1 := (syncPendingData w t1 (Some fs)).2 in
     let w2 := (syncPendingData w1 t2 (Some fs)).2 in
     let w3 := (syncPendingData w2 t3 (Some fs)).2 in
     queue_is (svc w1) [incr_retry item] ∧
     queue_is (svc w2) [incr_retry (incr_retry item)] ∧
     queue_is (svc w3) [] ∧
     calls w3 = calls w ++ [c; c; c]).
Proof.
  intros Hon Hw Hfail. split.
  - intros q now Hq Hitems r.
    destruct (syncPendingData_all_fail w now fs q Hon Hw Hq
                (failing_items fs q Hfail Hitems)) as (? & _ & _ & ? & ?).
    done.
  - intros item c t1 t2 t3 Hq H0 Hc w1 w2 w3.
    assert (∀ i, dispatch i = Some c →
              ∀ item' calls', item' ∈ [i] →
                ∃ e, (executeSyncItem item' (Some fs) calls').1 = Throw e) as Hone.
    { intros i Hi. apply failing_items; [done |].
      intros item' ->%list_elem_of_singleton. left. by eexists. }
    destruct (syncPendingData_all_fail w t1 fs [item] Hon Hw Hq (Hone _ Hc))
      as (_ & Hon1 & Hw1 & Hq1 & Hc1).
    rewrite retried_one in Hq1 by lia. fold w1 in Hon1, Hw1, Hq1, Hc1.
    pose proof (eq_trans (dispatch_incr_retry item) Hc) as Hd1.
    destruct (syncPendingData_all_fail w1 t2 fs _ Hon1 Hw1 Hq1 (Hone _ Hd1))
      as (_ & Hon2 & Hw2 & Hq2 & Hc2).
    rewrite retried_one in Hq2 by (simpl; lia). fold w2 in Hon2, Hw2, Hq2, Hc2.
    pose proof (eq_trans (dispatch_incr_retry (incr_retry item)) Hd1) as Hd2.
    destruct (syncPendingData_all_fail w2 t3 fs _ Hon2 Hw2 Hq2 (Hone _ Hd2))
      as (_ & _ & _ & Hq3 & Hc3).
    rewrite retried_last in Hq3 by (simpl; lia). fold w3 in Hq3, Hc3.
    repeat split; try done.
    rewrite Hc3, Hc2, Hc1. simpl.
    rewrite (sent_dispatch _ _ Hc), (sent_dispatch _ _ Hd1), (sent_dispatch _ _ Hd2).
    simpl. by rewrite <- !app_assoc.
Qed.

Lemma bounded_retry_witness :
  let w1 := (syncPendingData Sample.one_update 2000 (Some Sample.down)).2 in
  let w2 := (syncPendingData w1 3000 (Some Sample.down)).2 in
  let w3 := (syncPendingData w2 4000 (Some Sample.down)).2 in
  queue_is (svc w3) [] ∧
  calls w3 = [saveUserProfile (VStr "u1") Sample.profile;
              saveUserProfile (VStr "u1") Sample.profile;
              saveUserProfile (VStr "u1") Sample.profile].
Proof.
  assert (writes_always_fail Sample.down) as Hdown.
  { intros calls c. destruct c; simpl; eauto. }
  destruct (bounded_retry Sample.one_update Sample.down eq_refl eq_refl Hdown)
    as [_ H].
  destruct (H Sample.update_item (saveUserProfile (VStr "u1") Sample.profile)
              2000 3000 4000) as (_ & _ & H3 & Hc).
  - exists 1000. reflexivity.
  - reflexivity.
  - reflexivity.
  - split; [exact H3 | exact Hc].
Defined.

(** C1, as stated, fails on the queue [handleRegister] and a writer of an
    unsupported collection leave behind: against a remote service that
    rejects everything, the first drain counts the registration item as
    synced and drops it without raising its [retryCount]; the other item is
    retried and dropped after the third drain, and over the three drains the
    remote service has received no call at all. *)
Lemma retry_without_remote_attempt :
  let r1 := syncPendingData Sample.register_then_meal 2000 (Some Sample.down) in
  let r2 := syncPendingData r1.2 3000 (Some Sample.down) in
  let r3 := syncPendingData r2.2 4000 (Some Sample.down) in
  writes_always_fail Sample.down ∧
  (getSyncQueue (svc Sample.register_then_meal) 2000).1
    = [mkSyncQueue (pretty 1000 +:+ "0.4fzyo82mvyr") create "users"
         Sample.profile_payload 1000 0;
       mkSyncQueue (pretty 1001 +:+ "0.k2j9x") create "meals"
         (VObj [("userId", VStr "u1")]) 1001 0] ∧
  r1.1 = 1 ∧
  (getSyncQueue (svc r1.2) 3000).1
    = [mkSyncQueue (pretty 1001 +:+ "0.k2j9x") create "meals"
         (VObj [("userId", VStr "u1")]) 1001 1] ∧
  (getSyncQueue (svc r3.2) 5000).1 = [] ∧
  calls r3.2 = [].
Proof.
  split; [intros calls c; destruct c; simpl; eauto |].
  repeat split; reflexivity.
Qed.

(** C2 at its failing input: the item [handleRegister] enqueues offline
    ([create] on [users]) matches no remote write in [executeSyncItem]; the
    drain returns 1 for it and empties the queue although the remote service
    has received no call. *)
Theorem skipped_item_counted_as_synced :
  let r := syncPendingData Sample.register_only 2000 (Some Sample.up) in
  (getSyncQueue (svc Sample.register_only) 2000).1
    = [mkSyncQueue (pretty 1000 +:+ "0.4fzyo82mvyr") create "users"
         Sample.profile_payload 1000 0] ∧
  r.1 = 1 ∧ calls r.2 = [] ∧ (getSyncQueue (svc r.2) 3000).1 = [].
Proof. repeat split; reflexivity. Qed.

(** C7: a drain started while offline returns 0 and changes nothing: no
    remote call is made and the store, with the persisted queue, is the one
    it started from. *)
Theorem syncPendingData_offline w now (firestoreService : option firestore) :
  isOnline w = false → syncPendingData w now firestoreService = (0, w).
Proof. intros H. unfold syncPendingData. by rewrite H. Qed.

Lemma syncPendingData_offline_witness :
  syncPendingData Sample.one_update_offline 2000 (Some Sample.up)
  = (0, Sample.one_update_offline).
Proof. apply (syncPendingData_offline Sample.one_update_offline); reflexivity. Defined.

End SyncClaims.

(** ** The load and save routines *)

Section StoreFrame.

Implicit Types (st : storage) (key k x : string) (now : Z) (c : CachedData).

Lemma get_writable st now key : writable (get st now key).2 = writable st.
Proof.
  unfold get, remove. destruct (truthy_str key); simpl; [| done].
  destruct (read_entry st (PREFIX +:+ key)) as [c|]; [| done].
  destruct (expired now c); [| done]. simpl.
  unfold writable. by destruct (isStorageAvailable st) eqn:E; simpl; rewrite ?E.
Qed.

(** What [get] returns is read off the entry under the prefixed key. *)
Lemma get_fst st now key :
  (get st now key).1
  = if truthy_str key then
      match read_entry st (PREFIX +:+ key) with
      | Some c => if expired now c then None else Some (cd_data c)
      | None => None
      end
    else None.
Proof.
  unfold get. destruct (truthy_str key); simpl; [| done].
  destruct (read_entry st (PREFIX +:+ key)) as [c|]; [| done].
  by destruct (expired now c).
Qed.

(** [get] leaves the entries under other keys alone. *)
Lemma read_entry_get_ne st now key x :
  x ≠ PREFIX +:+ key → read_entry (get st now key).2 x = read_entry st x.
Proof.
  intros Hne. unfold get, remove. destruct (truthy_str key); simpl; [| done].
  destruct (read_entry st (PREFIX +:+ key)) as [c|]; [| done].
  destruct (expired now c); [| done]. simpl. unfold read_entry.
  destruct (isStorageAvailable st) eqn:E; simpl; rewrite E;
    by rewrite lookup_delete_ne.
Qed.

Lemma prefixed_ne (k1 k2 : string) : k1 ≠ k2 → PREFIX +:+ k1 ≠ PREFIX +:+ k2.
Proof. intros Hne Heq. by apply Hne, (app_inj_prefix PREFIX). Qed.

Lemma getSyncQueue_writable st now : writable (getSyncQueue st now).2 = writable st.
Proof.
  unfold getSyncQueue. pose proof (get_writable st now SYNC_QUEUE_KEY) as H.
  destruct (get st now SYNC_QUEUE_KEY) as [[[]|] st']; done.
Qed.

Lemma getSyncQueue_snd st now : (getSyncQueue st now).2 = (get st now SYNC_QUEUE_KEY).2.
Proof.
  unfold getSyncQueue. by destruct (get st now SYNC_QUEUE_KEY) as [[[]|] st'].
Qed.

(** The queue [getSyncQueue] returns, read off the entry. *)
Lemma getSyncQueue_fst st now :
  (getSyncQueue st now).1
  = match read_entry st (PREFIX +:+ SYNC_QUEUE_KEY) with
    | Some c => if expired now c then []
                else match cd_data c with VQueue q => q | _ => [] end
    | None => []
    end.
Proof.
  unfold getSyncQueue. pose proof (get_fst st now SYNC_QUEUE_KEY) as H.
  destruct (get st now SYNC_QUEUE_KEY) as [o st']. simpl in H. subst o.
  destruct (read_entry st (PREFIX +:+ SYNC_QUEUE_KEY)) as [c|]; [| done].
  destruct (expired now c); [done |]. by destruct (cd_data c).
Qed.

(** [addToSyncQueue] appends one item with [retryCount = 0] at the tail of
    the persisted queue. *)
Lemma addToSyncQueue_queue_is st now rnd act coll d :
  writable st = true → coll ≠ "" → truthy d = true →
  queue_is (addToSyncQueue st now rnd act coll d)
    ((getSyncQueue st now).1 ++ [mkSyncQueue (pretty now +:+ rnd) act coll d now 0]).
Proof.
  intros Hw Hc%truthy_str_ne Hd. unfold addToSyncQueue. rewrite Hc, Hd. simpl.
  pose proof (getSyncQueue_writable st now) as Hw'.
  destruct (getSyncQueue st now) as [q st1]. simpl in *.
  apply set_queue_is. congruence.
Qed.

Lemma addToSyncQueue_read_entry_ne st now rnd act coll d x :
  x ≠ PREFIX +:+ SYNC_QUEUE_KEY →
  read_entry (addToSyncQueue st now rnd act coll d) x = read_entry st x.
Proof.
  intros Hne. unfold addToSyncQueue.
  destruct (negb (truthy_str coll) || negb (truthy d)); [done |].
  pose proof (getSyncQueue_snd st now) as Hs.
  destruct (getSyncQueue st now) as [q st1]. simpl in Hs. subst st1.
  rewrite set_read_entry_ne by done. by apply read_entry_get_ne.
Qed.

Lemma addToSyncQueue_writable st now rnd act coll d :
  writable (addToSyncQueue st now rnd act coll d) = writable st.
Proof.
  unfold addToSyncQueue.
  destruct (negb (truthy_str coll) || negb (truthy d)); [done |].
  pose proof (getSyncQueue_writable st now) as Hw.
  destruct (getSyncQueue st now) as [q st1]. simpl in *.
  by rewrite set_writable.
Qed.

Section WeatherFrame.
Variable toLowerCase : string → string.

Lemma cacheWeatherData_read_entry_ne st now city w key :
  key ≠ "weather_" +:+ toLowerCase city →
  read_entry (cacheWeatherData toLowerCase st now city w) (PREFIX +:+ key)
  = read_entry st (PREFIX +:+ key).
Proof.
  intros Hne. unfold cacheWeatherData.
  destruct (negb (truthy_str city) || negb (truthy w)); [done |].
  apply set_read_entry_ne. by apply prefixed_ne.
Qed.
End WeatherFrame.

(** The cached profile, read off the entry [cacheUserProfile] wrote. *)
Lemma getCachedUserProfile_entry st now userId v t h :
  userId ≠ "" → 0 < h →
  read_entry st (PREFIX +:+ "user_profile_" +:+ userId)
    = Some (mkCachedData v t (Some (now + h))) →
  (getCachedUserProfile st now userId).1 = Some v.
Proof.
  intros Hu%truthy_str_ne Hh Hr. unfold getCachedUserProfile. rewrite Hu.
  cbn [negb]. rewrite get_fst.
  assert (truthy_str ("user_profile_" +:+ userId) = true) as -> by done.
  rewrite Hr. unfold expired. cbn [cd_expiry cd_data].
  destruct (now + h =? 0); cbn [negb andb]; [done |].
  destruct (now >? now + h) eqn:E; [lia | done].
Qed.

End StoreFrame.

Import App.

Section SaveClaims.

Variable firestoreService : firestore.
Variable getCurrentWeather : string → outcome value.
Variable toLowerCase : string → string.

Implicit Types (a : app) (now : Z) (au : AuthUser).


End SaveClaims.

Section ReadFrame.

Implicit Types (st : storage) (key k : string) (now : Z).

Lemma reads_as_refl now st : reads_as now st st.
Proof. by intros k. Qed.

Lemma reads_as_trans now st1 st2 st3 :
  reads_as now st1 st2 → reads_as now st2 st3 → reads_as now st1 st3.
Proof. intros H12 H23 k. by rewrite H23, H12. Qed.

(** A [get] may evict the entry it finds expired; no later [get] at the
    same time can tell. *)
Lemma get_reads_as now st key : reads_as now st (get st now key).2.
Proof.
  intros k. rewrite !get_fst. destruct (truthy_str k) eqn:Hk; [| done].
  destruct (decide (k = key)) as [->|Hne].
  - unfold get. rewrite Hk. cbn [negb].
    destruct (read_entry st (PREFIX +:+ key)) as [c|] eqn:Hr; cbn [snd].
    + destruct (expired now c) eqn:He; cbn [snd].
      * rewrite read_entry_remove; [done | by apply truthy_str_ne].
      * by rewrite Hr, He.
    + by rewrite Hr.
  - rewrite read_entry_get_ne; [done | by apply prefixed_ne].
Qed.


Lemma getCachedStats_reads_as now st userId :
  reads_as now st (getCachedStats st now userId).2.
Proof.
  unfold getCachedStats. destruct (negb (truthy_str userId));
    [apply reads_as_refl | apply get_reads_as].
Qed.

Lemma getCachedSessions_reads_as now st userId :
  reads_as now st (getCachedSessions st now userId).2.
Proof.
  unfold getCachedSessions. destruct (negb (truthy_str userId));
    [apply reads_as_refl |].
  pose proof (get_reads_as now st ("sessions_" +:+ userId)) as H.
  destruct (get st now ("sessions_" +:+ userId)) as [[l|] st']; [| done].
  by destruct (isArray l).
Qed.

Lemma getCachedUserProfile_fst now st st' userId :
  reads_as now st st' →
  (getCachedUserProfile st' now userId).1 = (getCachedUserProfile st now userId).1.
Proof.
  intros H. unfold getCachedUserProfile.
  destruct (negb (truthy_str userId)); [done | apply H].
Qed.

Lemma getCachedStats_fst now st st' userId :
  reads_as now st st' →
  (getCachedStats st' now userId).1 = (getCachedStats st now userId).1.
Proof.
  intros H. unfold getCachedStats.
  destruct (negb (truthy_str userId)); [done | apply H].
Qed.


End ReadFrame.

Section RoutineClaims.



(** C6 at its failing inputs.  A weight update changes the profile on
    screen and writes nothing to the cache, which keeps the old weight; a
    completed session whose remote write is rejected stays on screen while
    the cached list of sessions does not contain it. *)
Theorem ui_ahead_of_cache :
  let a := Sample.signed_in true in
  let a1 := handleWeightUpdate Sample.up a 72 in
  let a2 := handleActivityComplete Sample.down Sample.no_weather Sample.lower
              a 2000 "0.8gq1" Sample.plan None None None in
  (user (view a) = Some Sample.profile ∧
   (getCachedUserProfile (store a) 2000 "u1").1 = Some Sample.profile) ∧
  (user (view a1)
     = Some (VObj [("name", VStr "Ann"); ("weight", VNum 72); ("city", VStr "Paris")]) ∧
   (getCachedUserProfile (store a1) 2000 "u1").1 = Some Sample.profile) ∧
  (sessions (view a2)
     = [VObj (new_session "u1" Sample.plan Sample.sunny 2000 None None None);
        Sample.old_session] ∧
   (getCachedSessions (store a2) 2000 "u1").1 = Some (VArr [Sample.old_session])).
Proof. repeat split; reflexivity. Qed.

End RoutineClaims.

(** ** Overlapping drains *)

Import Overlap.

Section OverlapFacts.

Variable firestoreService : option firestore.

Implicit Types (w : world) (now : Z) (q items : list SyncQueue).





End OverlapFacts.

Section OverlapClaims.

Implicit Types (w : world) (now : Z) (q : list SyncQueue) (fs : firestore).





End OverlapClaims.

(** * Further properties of the storage service *)

Section CacheLaws.

Implicit Types (st : storage) (key k : string) (now : Z) (c : CachedData).

Lemma set_fst st now key v h :
  key ≠ "" → (set st now key (Some v) h).1 = true.
Proof.
  intros Hk%truthy_str_ne. unfold set, localStorage_setItem. rewrite Hk.
  by destruct (isStorageAvailable st), (setItemThrows st).
Qed.

Lemma remove_writable st key : writable (remove st key).2 = writable st.
Proof.
  unfold remove, writable.
  destruct (truthy_str key); [| done].
  by destruct (isStorageAvailable st) eqn:E; simpl; rewrite ?E.
Qed.

Lemma read_entry_remove_ne st key x :
  x ≠ PREFIX +:+ key → read_entry (remove st key).2 x = read_entry st x.
Proof.
  intros Hne. unfold remove. destruct (truthy_str key); [| done].
  unfold read_entry. destruct (isStorageAvailable st) eqn:E; simpl; rewrite E;
    by rewrite lookup_delete_ne.
Qed.

Lemma read_entry_clear st key : read_entry (clear st).2 (PREFIX +:+ key) = None.
Proof.
  unfold clear, read_entry.
  destruct (isStorageAvailable st) eqn:E; simpl; rewrite E, clear_lookup;
    by rewrite startsWith_app.
Qed.

(** X1: on a store that takes the write, a value stored at a time
    [now >= 0] with a time-to-live of [h > 0] hours is returned by [get] up
    to and including the instant [now + h * 3600000], and from the next
    millisecond on [get] returns [null] and the entry is gone. *)
Theorem set_get_within_ttl st now now' key v h :
  key ≠ "" → writable st = true → 0 ≤ now → 0 < h →
  let st' := (set st now key (Some v) (Some h)).2 in
  (now' ≤ now + h * 3600000 → get st' now' key = (Some v, st')) ∧
  (now + h * 3600000 < now' →
     (get st' now' key).1 = None ∧
     read_entry (get st' now' key).2 (PREFIX +:+ key) = None).
Proof.
  intros Hk Hw Hnow Hh st'.
  destruct (set_read_entry st now key v (Some h) Hk Hw) as [_ Hr].
  fold st' in Hr. unfold expiry_of in Hr.
  destruct (h =? 0) eqn:E; [lia |].
  split.
  - intros Hle. rewrite (get_unexpired st' now' key _ Hk Hr); [done |].
    unfold expired. cbn [cd_expiry].
    apply andb_false_iff. right. lia.
  - intros Hlt. unfold get. rewrite (proj2 (truthy_str_ne key) Hk), Hr.
    cbn [negb]. unfold expired at 1 2. cbn [cd_expiry].
    assert (negb (now + h * 60 * 60 * 1000 =? 0) && (now' >? now + h * 60 * 60 * 1000)
            = true) as ->.
    { apply andb_true_iff. split; [apply negb_true_iff |]; lia. }
    split; [done | by apply read_entry_remove].
Qed.

Lemma set_get_within_ttl_witness :
  let st' := (set Sample.fresh 1000 "k" (Some (VNum 7)) (Some 1)).2 in
  (3601000 ≤ 1000 + 1 * 3600000 → get st' 3601000 "k" = (Some (VNum 7), st')) ∧
  (1000 + 1 * 3600000 < 3601000 →
     (get st' 3601000 "k").1 = None ∧
     read_entry (get st' 3601000 "k").2 (PREFIX +:+ "k") = None).
Proof.
  apply (set_get_within_ttl Sample.fresh 1000 3601000 "k" (VNum 7) 1);
    [done | reflexivity | lia | lia].
Defined.

(** X2: a time-to-live of 0 hours does not make the entry expire at once:
    like a missing time-to-live it stores the entry without an expiry, and
    [get] returns the value at every later (or earlier) time. *)
Theorem set_zero_ttl_never_expires st now now' key v h :
  key ≠ "" → writable st = true → h = Some 0 ∨ h = None →
  get (set st now key (Some v) h).2 now' key
  = (Some v, (set st now key (Some v) h).2).
Proof.
  intros Hk Hw Hh.
  destruct (set_read_entry st now key v h Hk Hw) as [_ Hr].
  rewrite (get_unexpired _ now' key _ Hk Hr); [done |].
  unfold expired. cbn [cd_expiry]. by destruct Hh as [-> | ->].
Qed.

Lemma set_zero_ttl_never_expires_witness :
  get (set Sample.fresh 1000 "k" (Some (VNum 7)) (Some 0)).2 99999999999 "k"
  = (Some (VNum 7), (set Sample.fresh 1000 "k" (Some (VNum 7)) (Some 0)).2).
Proof.
  apply (set_zero_ttl_never_expires Sample.fresh 1000 99999999999 "k" (VNum 7) (Some 0));
    [done | reflexivity | by left].
Defined.

(** X3: [set] and [remove] on one key never change what [get] returns for
    a different key, whatever the values, the times and the state of the
    store. *)
Theorem other_keys_untouched st now now' key key' v h :
  key' ≠ key →
  (get (set st now key v h).2 now' key').1 = (get st now' key').1 ∧
  (get (remove st key).2 now' key').1 = (get st now' key').1.
Proof.
  intros Hne. rewrite !get_fst.
  rewrite set_read_entry_ne by (by apply prefixed_ne).
  by rewrite read_entry_remove_ne by (by apply prefixed_ne).
Qed.

Lemma other_keys_untouched_witness :
  (get (set Sample.cached 2000 "k" (Some (VNum 7)) None).2 2000 "user_profile_u1").1
    = (get Sample.cached 2000 "user_profile_u1").1 ∧
  (get (remove Sample.cached "k").2 2000 "user_profile_u1").1
    = (get Sample.cached 2000 "user_profile_u1").1.
Proof.
  apply (other_keys_untouched Sample.cached 2000 2000 "k" "user_profile_u1"
           (Some (VNum 7)) None).
  done.
Defined.



(** X5: the eviction of an expired entry by [get] is not observable: after
    a [get] at time [now], every [get] at the same or a later time returns
    what it would have returned had the first [get] not been made. *)
Theorem eviction_unobservable st now now' key key' :
  now ≤ now' →
  (get (get st now key).2 now' key').1 = (get st now' key').1.
Proof.
  intros Hle. rewrite !get_fst.
  destruct (truthy_str key') eqn:Hk'; [| done].
  destruct (decide (key' = key)) as [->|Hne].
  - unfold get. rewrite Hk'. cbn [negb].
    destruct (read_entry st (PREFIX +:+ key)) as [c|] eqn:Hr; cbn [snd].
    + destruct (expired now c) eqn:He; cbn [snd].
      * rewrite read_entry_remove by (by apply truthy_str_ne).
        assert (expired now' c = true) as ->; [| done].
        unfold expired in *. destruct (cd_expiry c) as [e|]; [| done].
        apply andb_true_iff in He as [Hz Hgt]. apply andb_true_iff.
        split; [done | lia].
      * by rewrite Hr.
    + by rewrite Hr.
  - rewrite read_entry_get_ne; [done | by apply prefixed_ne].
Qed.

Lemma eviction_unobservable_witness :
  (get (get Sample.cached 999999999999 "user_profile_u1").2 999999999999
     "sessions_u1").1
  = (get Sample.cached 999999999999 "sessions_u1").1.
Proof.
  apply (eviction_unobservable Sample.cached 999999999999 999999999999
           "user_profile_u1" "sessions_u1").
  lia.
Defined.

(** X6: after [clear], [get] returns [null] for every key at every time,
    and the persisted sync queue reads as empty: pending offline writes are
    discarded together with the cache. *)
Theorem clear_empties_cache st now key :
  (get (clear st).2 now key).1 = None ∧
  (getSyncQueue (clear st).2 now).1 = [].
Proof.
  split.
  - rewrite get_fst, read_entry_clear. by destruct (truthy_str key).
  - by rewrite getSyncQueue_fst, read_entry_clear.
Qed.

End CacheLaws.

Section TypedCacheLaws.

Variable toLowerCase : string → string.

Implicit Types (st : storage) (key k userId : string) (now : Z).




(** X8: the kinds of cached data do not collide: for any two user ids
    (equal or not), caching sessions, statistics or weather data changes
    neither the cached profile nor the persisted sync queue, and caching a
    profile changes neither the cached sessions, the cached statistics nor
    the queue; the profile of one user is not changed by caching the
    profile of another. *)
Theorem cache_kinds_isolated st now now' (userId userId' city : string) (v : value) :
  ((getCachedUserProfile (cacheSessions st now userId v) now' userId').1
     = (getCachedUserProfile st now' userId').1 ∧
   (getCachedUserProfile (cacheStats st now userId v) now' userId').1
     = (getCachedUserProfile st now' userId').1 ∧
   (getCachedUserProfile (cacheWeatherData toLowerCase st now city v) now' userId').1
     = (getCachedUserProfile st now' userId').1) ∧
  ((getCachedSessions (cacheUserProfile st now userId v) now' userId').1
     = (getCachedSessions st now' userId').1 ∧
   (getCachedStats (cacheUserProfile st now userId v) now' userId').1
     = (getCachedStats st now' userId').1) ∧
  ((getSyncQueue (cacheUserProfile st now userId v) now').1 = (getSyncQueue st now').1 ∧
   (getSyncQueue (cacheSessions st now userId v) now').1 = (getSyncQueue st now').1 ∧
   (getSyncQueue (cacheStats st now userId v) now').1 = (getSyncQueue st now').1 ∧
   (getSyncQueue (cacheWeatherData toLowerCase st now city v) now').1
     = (getSyncQueue st now').1) ∧
  (userId' ≠ userId →
   (getCachedUserProfile (cacheUserProfile st now userId v) now' userId').1
     = (getCachedUserProfile st now' userId').1).
Proof.
  assert (∀ st1 st2 u,
            read_entry st1 (PREFIX +:+ "user_profile_" +:+ u)
            = read_entry st2 (PREFIX +:+ "user_profile_" +:+ u) →
            (getCachedUserProfile st1 now' u).1 = (getCachedUserProfile st2 now' u).1)
    as Hprofile.
  { intros st1 st2 u H. unfold getCachedUserProfile.
    destruct (negb (truthy_str u)); [done |]. by rewrite !get_fst, H. }
  assert (∀ st1 st2 u,
            read_entry st1 (PREFIX +:+ "stats_" +:+ u)
            = read_entry st2 (PREFIX +:+ "stats_" +:+ u) →
            (getCachedStats st1 now' u).1 = (getCachedStats st2 now' u).1)
    as Hstats.
  { intros st1 st2 u H. unfold getCachedStats.
    destruct (negb (truthy_str u)); [done |]. by rewrite !get_fst, H. }
  assert (∀ st1 st2 u,
            read_entry st1 (PREFIX +:+ "sessions_" +:+ u)
            = read_entry st2 (PREFIX +:+ "sessions_" +:+ u) →
            (getCachedSessions st1 now' u).1 = (getCachedSessions st2 now' u).1)
    as Hsessions.
  { intros st1 st2 u H. unfold getCachedSessions.
    destruct (negb (truthy_str u)); [done |].
    pose proof (get_fst st1 now' ("sessions_" +:+ u)) as H1.
    pose proof (get_fst st2 now' ("sessions_" +:+ u)) as H2.
    rewrite H in H1. rewrite <- H2 in H1.
    destruct (get st1 now' ("sessions_" +:+ u)) as [o1 s1],
             (get st2 now' ("sessions_" +:+ u)) as [o2 s2].
    cbn [fst] in H1. subst o1. destruct o2 as [l|]; [| done]. by destruct (isArray l). }
  assert (∀ st1 st2,
            read_entry st1 (PREFIX +:+ SYNC_QUEUE_KEY)
            = read_entry st2 (PREFIX +:+ SYNC_QUEUE_KEY) →
            (getSyncQueue st1 now').1 = (getSyncQueue st2 now').1) as Hqueue.
  { intros st1 st2 H. by rewrite !getSyncQueue_fst, H. }
  unfold cacheUserProfile, cacheSessions, cacheStats, cacheWeatherData.
  repeat split;
    first [ apply Hprofile | apply Hsessions | apply Hstats | apply Hqueue
          | intros Hne; apply Hprofile ];
    repeat match goal with
           | |- context [if ?b then _ else _] => destruct b
           end;
    try reflexivity;
    apply set_read_entry_ne; apply prefixed_ne; try discriminate.
  intros H. apply Hne. by apply (app_inj_prefix "user_profile_").
Qed.

(** X9: [getCachedSessions] never hands out anything but an array: a
    cached value of another shape is reported as [null], and
    [cacheSessions] refuses to store one. *)
Theorem sessions_are_arrays st now userId v :
  (∀ l, (getCachedSessions st now userId).1 = Some l → isArray l = true) ∧
  (isArray v = false → cacheSessions st now userId v = st).
Proof.
  split.
  - intros l. unfold getCachedSessions.
    destruct (negb (truthy_str userId)); [done |].
    destruct (get st now ("sessions_" +:+ userId)) as [[x|] st']; [| done].
    destruct (isArray x) eqn:E; [| done]. by intros [= <-].
  - intros H. unfold cacheSessions. rewrite H. by rewrite orb_true_r.
Qed.

End TypedCacheLaws.


(** * Further properties of the sync queue and of the drain *)

Section DrainLaws.

Implicit Types (st : storage) (w : world) (fs : firestore) (item : SyncQueue)
  (q : list SyncQueue) (now : Z).

Lemma sync_loop_calls fs q : ∀ n remainingQueue calls0,
  (sync_loop (Some fs) q n remainingQueue calls0).2 = calls0 ++ concat (sent <$> q).
Proof.
  induction q as [|item q IH]; intros n remainingQueue calls0.
  - simpl. by rewrite app_nil_r.
  - cbn [sync_loop fmap list_fmap concat].
    pose proof (executeSyncItem_calls item fs calls0) as Hc.
    destruct (executeSyncItem item (Some fs) calls0) as [[[]|e] calls'];
      cbn [snd] in Hc; subst calls'; rewrite IH; by rewrite <- app_assoc.
Qed.

(** What a pass leaves behind, whatever the remote service answers. *)
Lemma sync_loop_shape (firestoreService : option firestore) q :
  ∀ n remainingQueue calls0,
  ∃ kept,
    (sync_loop firestoreService q n remainingQueue calls0).1.2 = remainingQueue ++ kept ∧
    sublist kept (incr_retry <$> q) ∧
    Forall (λ x, retryCount x < 3) kept ∧
    n ≤ (sync_loop firestoreService q n remainingQueue calls0).1.1 ∧
    (sync_loop firestoreService q n remainingQueue calls0).1.1 - n
      + Z.of_nat (length kept) ≤ Z.of_nat (length q).
Proof.
  induction q as [|item q IH]; intros n remainingQueue calls0.
  - exists []. cbn. rewrite app_nil_r. repeat split; [constructor | constructor | lia | lia].
  - cbn [sync_loop fmap list_fmap].
    destruct (executeSyncItem item firestoreService calls0) as [[[]|e] calls'].
    + destruct (IH (n + 1) remainingQueue calls') as (kept & H1 & H2 & H3 & H4 & H5).
      exists kept. repeat split; [done | by apply sublist_cons | done | lia |].
      cbn [length]. lia.
    + unfold on_failure.
      destruct (retryCount (incr_retry item) <? 3) eqn:E.
      * destruct (IH n (remainingQueue ++ [incr_retry item]) calls')
          as (kept & H1 & H2 & H3 & H4 & H5).
        exists (incr_retry item :: kept). repeat split.
        -- by rewrite H1, <- app_assoc.
        -- by apply sublist_skip.
        -- constructor; [lia | done].
        -- done.
        -- cbn [length]. lia.
      * destruct (IH n remainingQueue calls') as (kept & H1 & H2 & H3 & H4 & H5).
        exists kept. repeat split; [done | by apply sublist_cons | done | done |].
        cbn [length]. lia.
Qed.

Lemma sync_loop_all_ok fs q : ∀ n remainingQueue calls0,
  (∀ item calls', item ∈ q → (executeSyncItem item (Some fs) calls').1 = Ok tt) →
  sync_loop (Some fs) q n remainingQueue calls0
  = (n + Z.of_nat (length q), remainingQueue, calls0 ++ concat (sent <$> q)).
Proof.
  induction q as [|item q IH]; intros n remainingQueue calls0 Hall.
  - cbn. by rewrite Z.add_0_r, app_nil_r.
  - cbn [sync_loop fmap list_fmap concat length].
    pose proof (Hall item calls0 ltac:(by left)) as Hok.
    pose proof (executeSyncItem_calls item fs calls0) as Hc.
    destruct (executeSyncItem item (Some fs) calls0) as [[[]|e] calls'];
      cbn [fst snd] in *; [| done]. subst calls'.
    rewrite IH by (intros; apply Hall; by right).
    rewrite <- app_assoc. f_equal. f_equal. lia.
Qed.

Lemma executeSyncItem_accepted item fs calls0 c :
  writes_always_succeed fs → dispatch item = Some c →
  (executeSyncItem item (Some fs) calls0).1 = Ok tt.
Proof.
  intros Hok Hd. rewrite (executeSyncItem_dispatch _ _ _ _ Hd).
  assert (∃ v, fs calls0 c = Ok v) as [v Hv].
  { specialize (Hok calls0 c). revert Hd Hok.
    unfold dispatch, executeSyncItem, void, invoke.
    repeat case_match; simplify_eq/=; try done; intros; simplify_eq; done. }
  unfold invoke, void. by rewrite Hv.
Qed.

Lemma world_eta w : mkWorld (svc w) (navigator w) (calls w) = w.
Proof. by destruct w. Qed.

(** X10: on a store that takes the write, [addToSyncQueue] with a
    non-empty collection and a truthy payload appends exactly one item with
    [retryCount = 0] at the tail of the items waiting in the store, where
    [getSyncQueue] finds it at every later time, and changes no other cache
    entry; with an empty collection or a falsy payload it changes nothing. *)
Theorem enqueue_appends st now rnd act coll d q :
  writable st = true → pending st q →
  (coll ≠ "" → truthy d = true →
     queue_is (addToSyncQueue st now rnd act coll d)
       (q ++ [mkSyncQueue (pretty now +:+ rnd) act coll d now 0]) ∧
     ∀ now',
       (getSyncQueue (addToSyncQueue st now rnd act coll d) now').1
       = q ++ [mkSyncQueue (pretty now +:+ rnd) act coll d now 0]) ∧
  (∀ key now', key ≠ SYNC_QUEUE_KEY →
     (get (addToSyncQueue st now rnd act coll d) now' key).1 = (get st now' key).1) ∧
  (coll = "" ∨ truthy d = false → addToSyncQueue st now rnd act coll d = st).
Proof.
  intros Hw Hq.
  assert ((getSyncQueue st now).1 = q) as Hq0.
  { rewrite getSyncQueue_fst. destruct Hq as [[t Ht]|[Hn ->]].
    - by rewrite Ht.
    - by rewrite Hn. }
  split; [| split].
  - intros Hc Hd.
    pose proof (addToSyncQueue_queue_is st now rnd act coll d Hw Hc Hd) as H.
    rewrite Hq0 in H. split; [done |].
    intros now'. by rewrite (getSyncQueue_queue_is _ now' _ H).
  - intros key now' Hne. rewrite !get_fst.
    by rewrite addToSyncQueue_read_entry_ne by (by apply prefixed_ne).
  - intros [-> | Hd]; unfold addToSyncQueue; [done |].
    rewrite Hd. by rewrite orb_true_r.
Qed.

Lemma enqueue_appends_witness :
  queue_is
    (addToSyncQueue (svc Sample.one_update) 1500 "0.k2j9x" create "sessions"
       (VObj [("userId", VStr "u1")]))
    ([Sample.update_item]
       ++ [mkSyncQueue (pretty 1500 +:+ "0.k2j9x") create "sessions"
             (VObj [("userId", VStr "u1")]) 1500 0]).
Proof.
  refine (proj1 (proj1 (enqueue_appends (svc Sample.one_update) 1500 "0.k2j9x" create
                          "sessions" (VObj [("userId", VStr "u1")])
                          [Sample.update_item] eq_refl
                          (or_introl (ex_intro _ 1000 eq_refl))) _ _));
    [done | reflexivity].
Defined.



(** X12: on a store that takes the write, after an online drain pass the
    persisted queue consists of items of the old queue with their
    [retryCount] raised by one, in their old order; each of them has a
    [retryCount] below 3, and no item is both counted as synced and kept.
    This holds for every remote service, a missing one included. *)
Theorem drain_keeps_order w now (firestoreService : option firestore) q :
  Storage.isOnline w = true → writable (svc w) = true → queue_is (svc w) q →
  ∃ kept,
    queue_is (svc (syncPendingData w now firestoreService).2) kept ∧
    sublist kept (incr_retry <$> q) ∧
    Forall (λ x, retryCount x < 3) kept ∧
    (syncPendingData w now firestoreService).1 + Z.of_nat (length kept)
      ≤ Z.of_nat (length q).
Proof.
  intros Hon Hw Hq. unfold syncPendingData. rewrite Hon. cbn [negb].
  rewrite (getSyncQueue_queue_is _ now _ Hq).
  destruct q as [|item rest] eqn:Eq.
  - exists []. cbn. repeat split; [done | constructor | constructor | lia].
  - rewrite <- Eq.
    destruct (sync_loop_shape firestoreService q 0 [] (calls w))
      as (kept & H1 & H2 & H3 & H4 & H5).
    destruct (sync_loop firestoreService q 0 [] (calls w)) as [[n remainingQueue] calls'].
    cbn [fst snd svc] in *. subst remainingQueue. exists kept.
    repeat split; [by apply set_queue_is | done | done | lia].
Qed.

Lemma drain_keeps_order_witness :
  ∃ kept,
    queue_is (svc (syncPendingData Sample.register_then_meal 2000 (Some Sample.down)).2)
      kept ∧
    sublist kept (incr_retry <$> (getSyncQueue (svc Sample.register_then_meal) 2000).1) ∧
    Forall (λ x, retryCount x < 3) kept ∧
    (syncPendingData Sample.register_then_meal 2000 (Some Sample.down)).1
      + Z.of_nat (length kept)
      ≤ Z.of_nat (length (getSyncQueue (svc Sample.register_then_meal) 2000).1).
Proof.
  apply (drain_keeps_order Sample.register_then_meal 2000 (Some Sample.down)
           (getSyncQueue (svc Sample.register_then_meal) 2000).1);
    [reflexivity | reflexivity | exists 1001; reflexivity].
Defined.

(** X13: against a remote service that accepts every write, an online
    drain over a queue whose items all reach a remote write reports every
    item as synced, sends each write once in queue order and leaves the
    persisted queue empty; a second drain right after it returns 0 and
    changes nothing, the call log of the remote service included. *)
Theorem drain_all_accepted w now now' fs q :
  Storage.isOnline w = true → writable (svc w) = true → writes_always_succeed fs →
  queue_is (svc w) q → (∀ item, item ∈ q → is_Some (dispatch item)) →
  let r := syncPendingData w now (Some fs) in
  r.1 = Z.of_nat (length q) ∧
  queue_is (svc r.2) [] ∧
  calls r.2 = calls w ++ concat (sent <$> q) ∧
  syncPendingData r.2 now' (Some fs) = (0, r.2).
Proof.
  intros Hon Hw Hok Hq Hall r.
  assert (r.1 = Z.of_nat (length q) ∧ queue_is (svc r.2) [] ∧
          calls r.2 = calls w ++ concat (sent <$> q) ∧
          Storage.isOnline r.2 = true) as (H1 & H2 & H3 & H4).
  { subst r. unfold syncPendingData. rewrite Hon. cbn [negb].
    rewrite (getSyncQueue_queue_is _ now _ Hq).
    destruct q as [|item rest] eqn:Eq.
    - cbn. by rewrite app_nil_r.
    - rewrite <- Eq in *. rewrite sync_loop_all_ok.
      + cbn [fst snd svc calls]. repeat split; [by apply set_queue_is | done].
      + intros i calls' Hin. destruct (Hall i Hin) as [c Hc].
        by eapply executeSyncItem_accepted. }
  repeat split; try done.
  unfold syncPendingData. rewrite H4. cbn [negb].
  rewrite (getSyncQueue_queue_is _ now' _ H2). by rewrite world_eta.
Qed.

Lemma drain_all_accepted_witness :
  let r := syncPendingData Sample.one_update 2000 (Some Sample.up) in
  r.1 = 1 ∧ queue_is (svc r.2) [] ∧
  calls r.2 = [saveUserProfile (VStr "u1") Sample.profile] ∧
  syncPendingData r.2 3000 (Some Sample.up) = (0, r.2).
Proof.
  assert (writes_always_succeed Sample.up) as Hup.
  { intros calls c. destruct c; simpl; eauto. }
  refine (drain_all_accepted Sample.one_update 2000 3000 Sample.up
            [Sample.update_item] eq_refl eq_refl Hup _ _).
  - exists 1000. reflexivity.
  - intros item ->%list_elem_of_singleton. by eexists.
Defined.

(** X14: when [syncPendingData] is given no remote service, every item
    fails with "Invalid sync parameters": the pass reports 0, sends nothing,
    and still uses up one of the three attempts of every item. *)
Theorem drain_without_service w now q :
  Storage.isOnline w = true → writable (svc w) = true → queue_is (svc w) q →
  let r := syncPendingData w now None in
  r.1 = 0 ∧ calls r.2 = calls w ∧ queue_is (svc r.2) (retried q).
Proof.
  intros Hon Hw Hq r. subst r. unfold syncPendingData. rewrite Hon. cbn [negb].
  rewrite (getSyncQueue_queue_is _ now _ Hq).
  assert (∀ items n remainingQueue calls0,
            sync_loop None items n remainingQueue calls0
            = (n, remainingQueue ++ retried items, calls0)) as Hloop.
  { induction items as [|item items IH]; intros n remainingQueue calls0.
    - cbn. by rewrite app_nil_r.
    - cbn [sync_loop executeSyncItem]. rewrite IH. unfold on_failure, retried.
      cbn [fmap list_fmap List.filter].
      destruct (retryCount (incr_retry item) <? 3); by rewrite <- ?app_assoc. }
  destruct q as [|item rest] eqn:Eq.
  - done.
  - rewrite <- Eq. rewrite Hloop. cbn [fst snd svc calls]. rewrite app_nil_l.
    repeat split; try done. by apply set_queue_is.
Qed.

Lemma drain_without_service_witness :
  let r := syncPendingData Sample.one_update 2000 None in
  r.1 = 0 ∧ calls r.2 = [] ∧ queue_is (svc r.2) (retried [Sample.update_item]).
Proof.
  apply (drain_without_service Sample.one_update 2000 [Sample.update_item]);
    [reflexivity | reflexivity | exists 1000; reflexivity].
Defined.

(** X15: an item that reaches a remote write is counted as synced exactly
    when the remote service accepts that write; in both cases the remote
    service has received this one call and no other. *)
Theorem synced_iff_accepted item fs calls0 c :
  dispatch item = Some c →
  (executeSyncItem item (Some fs) calls0).2 = calls0 ++ [c] ∧
  ((executeSyncItem item (Some fs) calls0).1 = Ok tt ↔ ∃ v, fs calls0 c = Ok v).
Proof.
  intros Hd. rewrite (executeSyncItem_dispatch _ _ _ _ Hd). unfold invoke, void.
  destruct (fs calls0 c) as [v|e]; cbn [fst snd]; split; try done.
  - split; [by eexists | done].
  - split; [done | by intros [v Hv]].
Qed.

Lemma synced_iff_accepted_witness :
  (executeSyncItem Sample.update_item (Some Sample.up) []).2
    = [] ++ [saveUserProfile (VStr "u1") Sample.profile] ∧
  ((executeSyncItem Sample.update_item (Some Sample.up) []).1 = Ok tt
   ↔ ∃ v, Sample.up [] (saveUserProfile (VStr "u1") Sample.profile) = Ok v).
Proof.
  apply (synced_iff_accepted Sample.update_item Sample.up []
           (saveUserProfile (VStr "u1") Sample.profile)).
  reflexivity.
Defined.

End DrainLaws.

(** * Further properties of the application shell *)

Section ShellLaws.

Variable firestoreService : firestore.
Variable getCurrentWeather : string → outcome value.
Variable toLowerCase : string → string.

Implicit Types (a : app) (now : Z) (au : AuthUser) (st : storage).

Lemma handleUserUpdate_store a now rnd updatedUser au key :
  authUser (view a) = Some au →
  (∀ city, key ≠ "weather_" +:+ toLowerCase city) →
  read_entry
    (store (handleUserUpdate firestoreService getCurrentWeather toLowerCase
              a now rnd updatedUser)) (PREFIX +:+ key)
  = read_entry (saved_store a now rnd au updatedUser) (PREFIX +:+ key).
Proof.
  intros Hau Hkey. unfold handleUserUpdate, saved_store. rewrite Hau.
  destruct (isOnline (view a)).
  - unfold invoke.
    destruct (firestoreService (remote a) _) as [v|e]; cbn [store]; [| done].
    destruct (city_changed _ _) as [city|]; [| done].
    destruct (getCurrentWeather city) as [nw|e]; [| done].
    cbn [store]. by apply cacheWeatherData_read_entry_ne.
  - destruct (city_changed _ _) as [city|]; [| done].
    destruct (getCurrentWeather city) as [nw|e]; [| done].
    cbn [store]. by apply cacheWeatherData_read_entry_ne.
Qed.

Lemma cacheUserProfile_entry st now userId v :
  userId ≠ "" → truthy v = true → writable st = true →
  read_entry (cacheUserProfile st now userId v) (PREFIX +:+ "user_profile_" +:+ userId)
  = Some (mkCachedData v now (Some (now + 172800000))).
Proof.
  intros Hu Hv Hw. unfold cacheUserProfile.
  rewrite (proj2 (truthy_str_ne _) Hu), Hv. cbn [negb orb].
  by destruct (set_read_entry st now ("user_profile_" +:+ userId) v (Some 48)
                 ltac:(done) Hw) as [_ ->].
Qed.

Lemma cacheUserProfile_writable st now userId v :
  writable (cacheUserProfile st now userId v) = writable st.
Proof.
  unfold cacheUserProfile.
  destruct (negb (truthy_str userId) || negb (truthy v)); [done |].
  apply set_writable.
Qed.

Lemma cacheUserProfile_queue st now now' userId v :
  (getSyncQueue (cacheUserProfile st now userId v) now').1 = (getSyncQueue st now').1.
Proof.
  unfold cacheUserProfile.
  destruct (negb (truthy_str userId) || negb (truthy v)); [done |].
  rewrite !getSyncQueue_fst. by rewrite set_read_entry_ne by (by apply prefixed_ne).
Qed.

(** X16: a profile save made online by a signed-in user sends exactly one
    write to the remote service, the profile with [notifications] defaulted
    to [true], and caches and shows the profile whether the write is
    accepted or not.  When the write is rejected the user is told that the
    changes will be synchronised later, but nothing is put in the sync
    queue. *)
Theorem online_save a now rnd updatedUser au :
  authUser (view a) = Some au → uid au ≠ "" →
  isOnline (view a) = true → writable (store a) = true →
  let call := saveUserProfile (VStr (uid au)) (with_notifications updatedUser) in
  let a' := handleUserUpdate firestoreService getCurrentWeather toLowerCase
              a now rnd updatedUser in
  remote a' = remote a ++ [call] ∧
  user (view a') = Some (VObj updatedUser) ∧
  (getCachedUserProfile (store a') now (uid au)).1 = Some (VObj updatedUser) ∧
  (getSyncQueue (store a') now).1 = (getSyncQueue (store a) now).1 ∧
  notifications (view a')
  = match firestoreService (remote a) call with
    | Ok _ => notifications (view a)
    | Throw _ =>
        notifications (view a)
        ++ [("Erreur de sauvegarde",
             "Vos modifications seront synchronisées plus tard", "warning")]
    end.
Proof.
  intros Hau Hu Hon Hw call a'.
  assert (∀ key, (∀ city, key ≠ "weather_" +:+ toLowerCase city) →
            read_entry (store a') (PREFIX +:+ key)
            = read_entry (cacheUserProfile (store a) now (uid au) (VObj updatedUser))
                (PREFIX +:+ key)) as Hst.
  { intros key Hkey.
    pose proof (handleUserUpdate_store a now rnd updatedUser au key Hau Hkey) as H.
    unfold saved_store in H. by rewrite Hon in H. }
  split; [| split; [| split; [| split]]].
  - subst a'. unfold handleUserUpdate. rewrite Hau, Hon. unfold invoke. fold call.
    destruct (firestoreService (remote a) call); cbn [remote]; [| done].
    destruct (city_changed _ _) as [city|]; [| done].
    by destruct (getCurrentWeather city).
  - subst a'. unfold handleUserUpdate. rewrite Hau, Hon. unfold invoke. fold call.
    destruct (firestoreService (remote a) call); cbn [view]; [| done].
    destruct (city_changed _ _) as [city|]; [| done].
    by destruct (getCurrentWeather city).
  - apply (getCachedUserProfile_entry _ now (uid au) _ now 172800000);
      [done | lia |].
    rewrite Hst by (intros city; discriminate).
    by apply cacheUserProfile_entry.
  - rewrite !getSyncQueue_fst.
    rewrite (Hst SYNC_QUEUE_KEY) by (intros city; discriminate).
    pose proof (cacheUserProfile_queue (store a) now now (uid au) (VObj updatedUser)) as H.
    by rewrite !getSyncQueue_fst in H.
  - subst a'. unfold handleUserUpdate. rewrite Hau, Hon. unfold invoke. fold call.
    destruct (firestoreService (remote a) call); cbn [view]; [| done].
    destruct (city_changed _ _) as [city|]; [| done].
    by destruct (getCurrentWeather city).
Qed.

(** X17: when the remote write of a registration made online is rejected,
    the new profile is shown and the failure is reported, but the profile
    is neither cached nor queued: the store is left exactly as it was. *)
Theorem register_rejected a now rnd newUser profileData e :
  isOnline (view a) = true →
  firestoreService (remote a)
    (saveUserProfile (VStr (uid newUser)) (with_notifications profileData)) = Throw e →
  let a' := handleRegister firestoreService getCurrentWeather toLowerCase
              a now rnd newUser profileData in
  store a' = store a ∧
  authUser (view a') = Some newUser ∧
  user (view a') = Some (VObj profileData) ∧
  notifications (view a')
  = notifications (view a) ++ [("Erreur de création", "Veuillez réessayer", "error")].
Proof.
  intros Hon Hrej a'. subst a'. unfold handleRegister, invoke.
  by rewrite Hon, Hrej.
Qed.

(** X18: a logout whose sign-out succeeds resets the component state and
    clears the store of the application: every later [get] returns [null]
    and the sync queue reads as empty, so writes still pending are
    discarded without having been sent.  When the sign-out is rejected
    nothing is changed at all. *)
Theorem logout_discards_pending a now key e :
  let a' := handleLogout a (Ok tt) in
  authUser (view a') = None ∧ user (view a') = None ∧ sessions (view a') = [] ∧
  (get (store a') now key).1 = None ∧
  (getSyncQueue (store a') now).1 = [] ∧
  remote a' = remote a ∧
  handleLogout a (Throw e) = a.
Proof.
  cbn [handleLogout store view remote].
  repeat split.
  - rewrite get_fst, read_entry_clear. by destruct (truthy_str key).
  - by rewrite getSyncQueue_fst, read_entry_clear.
Qed.

End ShellLaws.

Lemma online_save_witness :
  let call := saveUserProfile (VStr "u1") (with_notifications Sample.new_profile) in
  let a' := handleUserUpdate Sample.down Sample.no_weather Sample.lower
              (Sample.signed_in true) 2000 "0.8gq1" Sample.new_profile in
  remote a' = [] ++ [call] ∧
  user (view a') = Some (VObj Sample.new_profile) ∧
  (getCachedUserProfile (store a') 2000 "u1").1 = Some (VObj Sample.new_profile) ∧
  (getSyncQueue (store a') 2000).1 = [] ∧
  notifications (view a')
  = [("Erreur de sauvegarde", "Vos modifications seront synchronisées plus tard",
      "warning")].
Proof.
  apply (online_save Sample.down Sample.no_weather Sample.lower
           (Sample.signed_in true) 2000 "0.8gq1" Sample.new_profile (mkAuthUser "u1"));
    [reflexivity | done | reflexivity | reflexivity].
Defined.

Lemma register_rejected_witness :
  let a' := handleRegister Sample.down Sample.no_weather Sample.lower
              (Sample.signed_out true) 1000 "0.8gq1" (mkAuthUser "u1")
              Sample.profile_fields in
  store a' = Sample.fresh ∧
  authUser (view a') = Some (mkAuthUser "u1") ∧
  user (view a') = Some (VObj Sample.profile_fields) ∧
  notifications (view a') = [] ++ [("Erreur de création", "Veuillez réessayer", "error")].
Proof.
  apply (register_rejected Sample.down Sample.no_weather Sample.lower
           (Sample.signed_out true) 1000 "0.8gq1" (mkAuthUser "u1")
           Sample.profile_fields "unavailable");
    reflexivity.
Defined.

Section LoadFrames.

Variable toLowerCase : string → string.

Implicit Types (st : storage) (now : Z) (userId city x : string).

Lemma getCachedUserProfile_snd st now userId :
  (getCachedUserProfile st now userId).2
  = if truthy_str userId then (get st now ("user_profile_" +:+ userId)).2 else st.
Proof. unfold getCachedUserProfile. by destruct (truthy_str userId). Qed.

Lemma getCachedStats_snd st now userId :
  (getCachedStats st now userId).2
  = if truthy_str userId then (get st now ("stats_" +:+ userId)).2 else st.
Proof. unfold getCachedStats. by destruct (truthy_str userId). Qed.

Lemma getCachedSessions_snd st now userId :
  (getCachedSessions st now userId).2
  = if truthy_str userId then (get st now ("sessions_" +:+ userId)).2 else st.
Proof.
  unfold getCachedSessions. destruct (truthy_str userId); [| done]. cbn [negb].
  destruct (get st now ("sessions_" +:+ userId)) as [[l|] st']; [| done].
  by destruct (isArray l).
Qed.

Lemma getCachedWeatherData_snd st now city :
  (getCachedWeatherData toLowerCase st now city).2
  = if truthy_str city then (get st now ("weather_" +:+ toLowerCase city)).2 else st.
Proof. unfold getCachedWeatherData. by destruct (truthy_str city). Qed.

Lemma same_queue_refl st : same_queue st st.
Proof. by split. Qed.

Lemma same_queue_trans st1 st2 st3 :
  same_queue st1 st2 → same_queue st2 st3 → same_queue st1 st3.
Proof. intros [H1 H2] [H3 H4]. split; congruence. Qed.

Lemma same_queue_get st now key :
  key ≠ SYNC_QUEUE_KEY → same_queue st (get st now key).2.
Proof.
  intros Hne. split; [| apply get_writable].
  apply read_entry_get_ne, prefixed_ne. congruence.
Qed.

Lemma same_queue_set st now key v h :
  key ≠ SYNC_QUEUE_KEY → same_queue st (set st now key v h).2.
Proof.
  intros Hne. split; [| apply set_writable].
  apply set_read_entry_ne, prefixed_ne. congruence.
Qed.

Lemma same_queue_getCachedUserProfile st now userId :
  same_queue st (getCachedUserProfile st now userId).2.
Proof.
  rewrite getCachedUserProfile_snd. destruct (truthy_str userId);
    [by apply same_queue_get | apply same_queue_refl].
Qed.

Lemma same_queue_getCachedSessions st now userId :
  same_queue st (getCachedSessions st now userId).2.
Proof.
  rewrite getCachedSessions_snd. destruct (truthy_str userId);
    [by apply same_queue_get | apply same_queue_refl].
Qed.

Lemma same_queue_getCachedStats st now userId :
  same_queue st (getCachedStats st now userId).2.
Proof.
  rewrite getCachedStats_snd. destruct (truthy_str userId);
    [by apply same_queue_get | apply same_queue_refl].
Qed.

Lemma same_queue_getCachedWeatherData st now city :
  same_queue st (getCachedWeatherData toLowerCase st now city).2.
Proof.
  rewrite getCachedWeatherData_snd. destruct (truthy_str city);
    [by apply same_queue_get | apply same_queue_refl].
Qed.

Lemma same_queue_cacheUserProfile st now userId v :
  same_queue st (cacheUserProfile st now userId v).
Proof.
  unfold cacheUserProfile. destruct (_ || _);
    [apply same_queue_refl | by apply same_queue_set].
Qed.

Lemma same_queue_cacheSessions st now userId v :
  same_queue st (cacheSessions st now userId v).
Proof.
  unfold cacheSessions. destruct (_ || _);
    [apply same_queue_refl | by apply same_queue_set].
Qed.

Lemma same_queue_cacheStats st now userId v :
  same_queue st (cacheStats st now userId v).
Proof.
  unfold cacheStats. destruct (_ || _);
    [apply same_queue_refl | by apply same_queue_set].
Qed.

Lemma same_queue_cacheWeatherData st now city v :
  same_queue st (cacheWeatherData toLowerCase st now city v).
Proof.
  unfold cacheWeatherData. destruct (_ || _);
    [apply same_queue_refl | by apply same_queue_set].
Qed.

Lemma same_queue_getSyncQueue st st' now :
  same_queue st st' → (getSyncQueue st' now).1 = (getSyncQueue st now).1.
Proof. intros [H _]. by rewrite !getSyncQueue_fst, H. Qed.

Lemma same_queue_queue_is st st' q : same_queue st st' → queue_is st q → queue_is st' q.
Proof. intros [H _] [t Ht]. exists t. by rewrite H. Qed.

End LoadFrames.

(** * Remote reads that fail *)

Section FailedReads.

Variable db : FirestoreService.sdk.
Variable summary : list value → list value → outcome value.
Variable writes : firestore.
Variable getCurrentWeather : string → outcome value.
Variable toLowerCase : string → string.

Implicit Types (a : app) (st : storage) (now : Z) (userId key : string).

Lemma fetch_all_service userId calls0 :
  fetch_all (FirestoreService.service db summary writes) userId calls0
  = (Ok (FirestoreService.getUserProfile db userId,
         VArr (FirestoreService.getUserSessions db userId 20),
         VArr (FirestoreService.getWeightHistory db userId 10),
         FirestoreService.getUserStats db summary userId),
     calls0 ++ [getUserProfile userId; getUserSessions userId 20;
                getWeightHistory userId 10; getUserStats userId]).
Proof. unfold fetch_all, invoke. cbn. by rewrite <- !app_assoc. Qed.

Lemma cacheStats_read_entry_ne st now userId v key :
  key ≠ "stats_" +:+ userId →
  read_entry (cacheStats st now userId v) (PREFIX +:+ key) = read_entry st (PREFIX +:+ key).
Proof.
  intros Hne. unfold cacheStats. destruct (_ || _); [done |].
  apply set_read_entry_ne. by apply prefixed_ne.
Qed.

Lemma getCachedWeatherData_read_entry_ne st now city key :
  key ≠ "weather_" +:+ toLowerCase city →
  read_entry (getCachedWeatherData toLowerCase st now city).2 (PREFIX +:+ key)
  = read_entry st (PREFIX +:+ key).
Proof.
  intros Hne. rewrite getCachedWeatherData_snd. destruct (truthy_str city); [| done].
  apply read_entry_get_ne. by apply prefixed_ne.
Qed.

Lemma getCachedSessions_entry st now userId v t h :
  userId ≠ "" → 0 < h → isArray v = true →
  read_entry st (PREFIX +:+ "sessions_" +:+ userId)
    = Some (mkCachedData v t (Some (now + h))) →
  (getCachedSessions st now userId).1 = Some v.
Proof.
  intros Hu%truthy_str_ne Hh Hv Hr. unfold getCachedSessions. rewrite Hu.
  cbn [negb].
  pose proof (get_fst st now ("sessions_" +:+ userId)) as H.
  assert (truthy_str ("sessions_" +:+ userId) = true) as Hk by done.
  rewrite Hk, Hr in H. unfold expired in H. cbn [cd_expiry cd_data] in H.
  assert ((now >? now + h) = false) as E by lia.
  rewrite E, andb_false_r in H.
  destruct (get st now ("sessions_" +:+ userId)) as [o st']. cbn [fst] in H.
  subst o. by rewrite Hv.
Qed.

(** C5, where the code departs from it.  [FirestoreService] reports a read
    that failed as an empty result, and for the list of sessions that result is
    [], which is truthy: when the application is online, the cache holds the
    profile and the sessions of the user and the remote reads fail,
    [loadUserData] returns normally and keeps the cached profile, but
    [freshData[1] || userSessions || []] takes the empty list, so that the
    cached sessions are neither shown nor kept: the list on screen is empty
    and [cacheSessions] has replaced the cached list by []. *)
Theorem failed_read_empties_sessions a now userId p l e e' :
  isOnline (view a) = true → writable (store a) = true →
  (getCachedUserProfile (store a) now userId).1 = Some p → truthy p = true →
  (getCachedSessions (store a) now userId).1 = Some l →
  FirestoreService.getDoc db "users" userId = Throw e →
  FirestoreService.getDocs db "sessions" userId 20 = Throw e' →
  let r := loadUserData (FirestoreService.service db summary writes)
             getCurrentWeather toLowerCase a now userId in
  r.1 = Ok tt ∧
  loading (view r.2) = false ∧
  user (view r.2) = Some p ∧
  sessions (view r.2) = [] ∧
  (getCachedSessions (store r.2) now userId).1 = Some (VArr []).
Proof.
  intros Hon Hw Hp Hpt Hl Hdoc Hdocs r.
  assert (userId ≠ "") as Hu.
  { intros ->. by cbn in Hl. }
  pose proof (proj2 (truthy_str_ne userId) Hu) as Hu'.
  assert (FirestoreService.getUserProfile db userId = VNull) as Hf0.
  { unfold FirestoreService.getUserProfile. by rewrite Hdoc. }
  assert (FirestoreService.getUserSessions db userId 20 = []) as Hf1.
  { unfold FirestoreService.getUserSessions. by rewrite Hdocs. }
  subst r. unfold loadUserData, load_try, load_fetch. rewrite Hon.
  rewrite fetch_all_service, Hf0, Hf1.
  pose proof (same_queue_getCachedUserProfile (store a) now userId) as [_ W1].
  destruct (getCachedUserProfile (store a) now userId) as [p0 st1] eqn:E1.
  cbn [fst snd] in Hp, W1. subst p0.
  pose proof (same_queue_getCachedSessions st1 now userId) as [_ W2].
  destruct (getCachedSessions st1 now userId) as [l0 st2] eqn:E2.
  pose proof (same_queue_getCachedStats st2 now userId) as [_ W3].
  destruct (getCachedStats st2 now userId) as [x0 st3] eqn:E3.
  cbn [fst snd] in W2, W3.
  assert (writable st3 = true) as Hw3 by congruence.
  change (or_else VNull (Some p)) with (Some p).
  change (truthy (VArr [])) with true.
  change (truthy_opt (Some p)) with (truthy p). rewrite Hpt. cbv iota.
  change (truthy (VArr [])) with true. cbv iota.
  set (userStats := or_else (FirestoreService.getUserStats db summary userId) x0).
  set (st4 := cacheUserProfile st3 now userId p).
  set (st5 := cacheSessions st4 now userId (VArr [])).
  set (st6 := if truthy_opt userStats
              then cacheStats st5 now userId
                     (match userStats with Some x => x | None => VNull end)
              else st5).
  unfold load_default.
  change (truthy_opt (Some p)) with (truthy p). rewrite Hpt.
  cbn [view store remote].
  assert (read_entry st6 (PREFIX +:+ "sessions_" +:+ userId)
          = Some (mkCachedData (VArr []) now (Some (now + 86400000)))) as Hs6.
  { assert (read_entry st5 (PREFIX +:+ "sessions_" +:+ userId)
            = Some (mkCachedData (VArr []) now (Some (now + 86400000)))) as Hs5.
    { unfold st5, cacheSessions. rewrite Hu'. cbn [negb orb isArray].
      assert (writable st4 = true) as Hw4.
      { unfold st4. by rewrite cacheUserProfile_writable. }
      by destruct (set_read_entry st4 now ("sessions_" +:+ userId) (VArr [])
                     (Some 24) ltac:(done) Hw4) as [_ ->]. }
    unfold st6. destruct (truthy_opt userStats); [| done].
    rewrite cacheStats_read_entry_ne; [done | discriminate]. }
  unfold load_weather, load_finally. cbn [view store remote].
  pose proof (getCachedWeatherData_read_entry_ne st6 now (city_or_Paris p)
                ("sessions_" +:+ userId) ltac:(discriminate)) as Hs7.
  destruct (getCachedWeatherData toLowerCase st6 now (city_or_Paris p))
    as [cachedWeather st7] eqn:E7.
  cbn [snd] in Hs7. rewrite Hs6 in Hs7.
  assert (∀ st, read_entry st (PREFIX +:+ "sessions_" +:+ userId)
                = Some (mkCachedData (VArr []) now (Some (now + 86400000))) →
                (getCachedSessions st now userId).1 = Some (VArr [])) as Hget.
  { intros st Hr.
    by apply (getCachedSessions_entry st now userId (VArr []) now 86400000). }
  destruct (getCurrentWeather (city_or_Paris p)) as [weatherData|ew];
    cbn [fst snd view store remote];
    (split; [done | split; [done | split; [| split]]];
     try (by destruct (truthy_opt cachedWeather))).
  - apply Hget. rewrite cacheWeatherData_read_entry_ne; [done | discriminate].
  - by apply Hget.
Qed.

End FailedReads.

Lemma failed_read_empties_sessions_witness :
  let a := Sample.signed_in true in
  let r := loadUserData
             (FirestoreService.service Sample.unreachable Sample.no_summary Sample.up)
             Sample.no_weather Sample.lower a 2000 "u1" in
  (getCachedSessions (store a) 2000 "u1").1 = Some (VArr [Sample.old_session]) ∧
  r.1 = Ok tt ∧
  loading (view r.2) = false ∧
  user (view r.2) = Some Sample.profile ∧
  sessions (view r.2) = [] ∧
  (getCachedSessions (store r.2) 2000 "u1").1 = Some (VArr []).
Proof.
  split; [reflexivity |].
  apply (failed_read_empties_sessions Sample.unreachable Sample.no_summary Sample.up
           Sample.no_weather Sample.lower (Sample.signed_in true) 2000 "u1"
           Sample.profile (VArr [Sample.old_session]) "unavailable" "unavailable");
    reflexivity.
Defined.

(** * Further properties of the load and of the drain *)

Section LoadLaws.

Variable firestoreService : firestore.
Variable getCurrentWeather : string → outcome value.
Variable toLowerCase : string → string.

Implicit Types (a : app) (now : Z) (userId : string) (st : storage).

Lemma same_queue_if st (b : bool) st1 st2 :
  same_queue st st1 → same_queue st st2 → same_queue st (if b then st1 else st2).
Proof. by destruct b. Qed.

Lemma load_fetch_same_queue a now online userId :
  same_queue (store a) (store (load_fetch firestoreService a now online userId).2).
Proof.
  unfold load_fetch.
  pose proof (same_queue_getCachedUserProfile (store a) now userId) as S1.
  destruct (getCachedUserProfile (store a) now userId) as [p0 st1].
  pose proof (same_queue_getCachedSessions st1 now userId) as S2.
  destruct (getCachedSessions st1 now userId) as [l0 st2].
  pose proof (same_queue_getCachedStats st2 now userId) as S3.
  destruct (getCachedStats st2 now userId) as [x0 st3].
  cbn [snd] in *.
  assert (same_queue (store a) st3) as S123.
  { eapply same_queue_trans; [| exact S3]. by eapply same_queue_trans. }
  destruct online; [| done].
  destruct (fetch_all firestoreService userId (remote a))
    as [[[[[f0 f1] f2] f3]|e] calls1]; [| done].
  cbn [snd store].
  assert (∀ (b : bool) v, same_queue (store a)
            (if b then cacheUserProfile st3 now userId v else st3)) as S4.
  { intros b v. apply same_queue_if; [| done].
    eapply same_queue_trans; [exact S123 | apply same_queue_cacheUserProfile]. }
  apply same_queue_if.
  - eapply same_queue_trans; [| apply same_queue_cacheStats].
    apply same_queue_if; [| apply S4].
    eapply same_queue_trans; [| apply same_queue_cacheSessions]. apply S4.
  - apply same_queue_if; [| apply S4].
    eapply same_queue_trans; [| apply same_queue_cacheSessions]. apply S4.
Qed.

Lemma load_default_same_queue a now online userId userData :
  same_queue (store a)
    (store (load_default firestoreService a now online userId userData).2).
Proof.
  unfold load_default, invoke.
  destruct (truthy_opt userData); [apply same_queue_refl |].
  destruct online.
  - destruct (firestoreService (remote a) _); cbn [snd store];
      [apply same_queue_cacheUserProfile | apply same_queue_refl].
  - cbn [snd store]. apply same_queue_cacheUserProfile.
Qed.

Lemma load_weather_same_queue a now online userData :
  same_queue (store a)
    (store (load_weather getCurrentWeather toLowerCase a now online userData)).
Proof.
  unfold load_weather.
  pose proof (same_queue_getCachedWeatherData toLowerCase (store a) now
                (city_or_Paris userData)) as S1.
  destruct (getCachedWeatherData toLowerCase (store a) now (city_or_Paris userData))
    as [cw st1]. cbn [snd] in S1.
  destruct online; [| done].
  destruct (getCurrentWeather (city_or_Paris userData)); cbn [store]; [| done].
  eapply same_queue_trans; [exact S1 | apply same_queue_cacheWeatherData].
Qed.

Lemma load_recover_same_queue a now userId :
  same_queue (store a) (store (load_recover a now userId)).
Proof.
  unfold load_recover.
  pose proof (same_queue_getCachedUserProfile (store a) now userId) as S1.
  destruct (getCachedUserProfile (store a) now userId) as [p0 st1].
  pose proof (same_queue_getCachedSessions st1 now userId) as S2.
  destruct (getCachedSessions st1 now userId) as [l0 st2].
  pose proof (same_queue_getCachedStats st2 now userId) as S3.
  destruct (getCachedStats st2 now userId) as [x0 st3].
  cbn [snd store] in *.
  eapply same_queue_trans; [| exact S3]. by eapply same_queue_trans.
Qed.

Lemma load_try_same_queue a now online userId :
  same_queue (store a)
    (store (load_try firestoreService getCurrentWeather toLowerCase
              a now online userId).2).
Proof.
  unfold load_try.
  pose proof (load_fetch_same_queue a now online userId) as S1.
  destruct (load_fetch firestoreService a now online userId)
    as [[[[ud us] ust]|e] a1]; cbn [snd] in *; [| done].
  pose proof (load_default_same_queue a1 now online userId ud) as S2.
  destruct (load_default firestoreService a1 now online userId ud)
    as [[ud'|e] a2]; cbn [snd] in *.
  - eapply same_queue_trans; [| apply load_weather_same_queue].
    cbn [store]. by eapply same_queue_trans.
  - by eapply same_queue_trans.
Qed.

Lemma loadUserData_same_queue a now userId :
  same_queue (store a)
    (store (loadUserData firestoreService getCurrentWeather toLowerCase
              a now userId).2).
Proof.
  unfold loadUserData.
  pose proof (load_try_same_queue a now (isOnline (view a)) userId) as S1.
  destruct (load_try firestoreService getCurrentWeather toLowerCase a now
              (isOnline (view a)) userId) as [[[]|e] a1]; cbn [snd] in *.
  - done.
  - cbn [load_finally store]. eapply same_queue_trans; [exact S1 |].
    apply load_recover_same_queue.
Qed.

(** X19: a load never touches the sync queue, whether it runs online or
    offline and whether it returns or rejects: the entry under the
    sync-queue key after [loadUserData] is the entry before it, and so is
    the queue read at any time. *)
Theorem load_keeps_queue a now now' userId :
  let r := loadUserData firestoreService getCurrentWeather toLowerCase a now userId in
  read_entry (store r.2) (PREFIX +:+ SYNC_QUEUE_KEY)
    = read_entry (store a) (PREFIX +:+ SYNC_QUEUE_KEY) ∧
  (getSyncQueue (store r.2) now').1 = (getSyncQueue (store a) now').1.
Proof.
  intros r. pose proof (loadUserData_same_queue a now userId) as S.
  split; [apply S | by apply same_queue_getSyncQueue].
Qed.


End LoadLaws.


Section ServiceLaws.

Variable db : FirestoreService.sdk.
Variable summary : list value → list value → outcome value.
Variable writes : firestore.
Variable getCurrentWeather : string → outcome value.
Variable toLowerCase : string → string.

Implicit Types (a : app) (st : storage) (now : Z) (userId key : string).


End ServiceLaws.

Section QueueRoundTrip.

Variable firestoreService : firestore.
Variable getCurrentWeather : string → outcome value.
Variable toLowerCase : string → string.

Implicit Types (a : app) (st : storage) (w : world) (now : Z) (q : list SyncQueue).


(** The calls of an online pass, whatever the remote service answers. *)
Lemma syncPendingData_calls w now fs q :
  Storage.isOnline w = true → queue_is (svc w) q →
  calls (syncPendingData w now (Some fs)).2 = calls w ++ concat (sent <$> q).
Proof.
  intros Hon Hq. unfold syncPendingData. rewrite Hon. cbn [negb].
  rewrite (getSyncQueue_queue_is _ now _ Hq).
  destruct q as [|item rest] eqn:Eq.
  - cbn. by rewrite app_nil_r.
  - rewrite <- Eq.
    pose proof (sync_loop_calls fs q 0 [] (calls w)) as Hc.
    destruct (sync_loop (Some fs) q 0 [] (calls w)) as [[n remainingQueue] calls'].
    by cbn [fst snd calls] in *.
Qed.



End QueueRoundTrip.


Section FullStore.

Implicit Types (st : storage) (w : world) (now : Z) (q : list SyncQueue).

(** On a store whose [setItem] throws, [set] leaves every entry as [get]
    reads it. *)
Lemma set_read_entry_full st now key v h k :
  isStorageAvailable st = true → setItemThrows st = true →
  read_entry (set st now key v h).2 k = read_entry st k.
Proof.
  intros Ha Ht. unfold set, localStorage_setItem, read_entry.
  destruct (truthy_str key), v as [v|]; cbn [negb snd]; try done.
  rewrite Ha, Ht. cbn. by rewrite Ha.
Qed.

(** X23: on a store whose [localStorage.setItem] throws, a drain pass
    cannot record its outcome: the persisted queue after the pass is the
    queue before it, with no [retryCount] raised, so that the next pass sends
    the same writes again, those that were accepted included. *)
Theorem drain_not_persisted w now now' fs q :
  Storage.isOnline w = true →
  isStorageAvailable (svc w) = true → setItemThrows (svc w) = true →
  queue_is (svc w) q →
  let r := syncPendingData w now (Some fs) in
  queue_is (svc r.2) q ∧
  calls (syncPendingData r.2 now' (Some fs)).2
  = calls w ++ concat (sent <$> q) ++ concat (sent <$> q).
Proof.
  intros Hon Ha Ht Hq r.
  assert (queue_is (svc r.2) q ∧ Storage.isOnline r.2 = true) as [Hq' Hon'].
  { subst r. unfold syncPendingData. rewrite Hon. cbn [negb].
    rewrite (getSyncQueue_queue_is _ now _ Hq).
    destruct q as [|item rest] eqn:Eq; [done |]. rewrite <- Eq in *.
    destruct (sync_loop (Some fs) q 0 [] (calls w)) as [[n remainingQueue] calls'].
    cbn [snd svc]. split; [| done].
    destruct Hq as [t Hr]. exists t. by rewrite set_read_entry_full. }
  split; [done |].
  rewrite (syncPendingData_calls _ now' fs q Hon' Hq').
  subst r. rewrite (syncPendingData_calls _ now fs q Hon Hq).
  by rewrite <- app_assoc.
Qed.

End FullStore.

Lemma drain_not_persisted_witness :
  let r := syncPendingData Sample.one_update_full 2000 (Some Sample.up) in
  queue_is (svc r.2) [Sample.update_item] ∧
  calls (syncPendingData r.2 3000 (Some Sample.up)).2
  = [saveUserProfile (VStr "u1") Sample.profile;
     saveUserProfile (VStr "u1") Sample.profile].
Proof.
  apply (drain_not_persisted Sample.one_update_full 2000 3000 Sample.up
           [Sample.update_item] eq_refl eq_refl eq_refl
           (ex_intro _ 1000 eq_refl)).
Defined.
